(** * ProctorLink backend: the request handlers of [main.py]

    A shallow embedding of the FastAPI handlers ([create_exam],
    [get_exam_by_slug], [verify_exam_password], [log_event], [export_log])
    and of the helpers they call ([oid], [hash_password], [make_slug]),
    followed by the properties the specification states about them.

    Conventions.
    - A Python [str] is a Rocq [string] holding its UTF-8 bytes, so that
      [pw.encode()] is the list of the characters' codes.
    - A byte and a 32-bit word are a [Z]; additions wrap modulo [2^32].
    - The handlers run in a state-and-exception monad over a [World]: the
      two MongoDB collections, the process environment and the sources of
      non-determinism (clock, [os.urandom], the driver's ObjectId
      generator). *)

From Stdlib Require Import ZArith List Ascii String Lia Bool Permutation Sorted.
From stdpp Require Import base tactics list sorting strings.
Import ListNotations.

Local Open Scope Z_scope.

(** ** Hexadecimal rendering *)

Module Hex.

Definition digits : list ascii :=
  list_ascii_of_string "0123456789abcdef".

(** [format(n, 'x')] for one nibble. *)
Definition digit (n : Z) : ascii := nth (Z.to_nat n) digits "0"%char.

(** Two digits per byte, most significant nibble first. *)
Definition of_byte (b : Z) : list ascii := [digit (b / 16); digit (b mod 16)].

Definition of_bytes (bs : list Z) : list ascii := concat (map of_byte bs).

(** Characters [0-9a-f]. *)
Definition is_lower_hex (c : ascii) : bool :=
  let n := N_of_ascii c in
  ((48 <=? n) && (n <=? 57) || (97 <=? n) && (n <=? 102))%N.

End Hex.

(** ** Big-endian words *)

Module Word.

Definition modulus : Z := 2 ^ 32.
Definition wrap (x : Z) : Z := x mod modulus.
Definition add (x y : Z) : Z := wrap (x + y).
Definition rotl (n x : Z) : Z :=
  Z.lor (wrap (Z.shiftl x n)) (Z.shiftr x (32 - n)).
Definition rotr (n x : Z) : Z :=
  Z.lor (Z.shiftr x n) (wrap (Z.shiftl x (32 - n))).
Definition not (x : Z) : Z := Z.lxor x 0xffffffff.

(** Four bytes, most significant first. *)
Definition of_bytes (bs : list Z) : Z :=
  fold_left (fun acc b => acc * 256 + b) bs 0.

Definition to_bytes (w : Z) : list Z :=
  [Z.shiftr w 24 mod 256; Z.shiftr w 16 mod 256; Z.shiftr w 8 mod 256; w mod 256].

Fixpoint group (k : nat) (n : nat) (l : list Z) : list (list Z) :=
  match n with
  | O => []
  | S n' => firstn k l :: group k n' (skipn k l)
  end.

(** Split a padded message into blocks of [k] bytes. *)
Definition chunks (k : nat) (l : list Z) : list (list Z) :=
  group k (Nat.div (List.length l) k) l.

(** Merkle-Damgard padding shared by SHA-1 and SHA-256: a [0x80] byte,
    zeros up to 56 modulo 64, then the bit length on 8 bytes. *)
Definition pad (msg : list Z) : list Z :=
  let len := Z.of_nat (List.length msg) in
  let zeros := Z.to_nat ((55 - len) mod 64) in
  let bits := len * 8 in
  msg ++ [0x80] ++ repeat 0 zeros
      ++ to_bytes (Z.shiftr bits 32 mod modulus) ++ to_bytes (bits mod modulus).

Definition block_words (block : list Z) : list Z :=
  map of_bytes (chunks 4 block).

End Word.

(** ** [hashlib.sha1] *)

Module SHA1.
Import Word.

Definition schedule_step (w : list Z) (t : nat) : list Z :=
  let at_ k := nth (t - k) w 0 in
  w ++ [rotl 1 (Z.lxor (Z.lxor (at_ 3%nat) (at_ 8%nat))
                       (Z.lxor (at_ 14%nat) (at_ 16%nat)))].

Definition schedule (block : list Z) : list Z :=
  fold_left schedule_step (seq 16 64) (block_words block).

Definition f (t : nat) (b c d : Z) : Z :=
  if (t <? 20)%nat then Z.lor (Z.land b c) (Z.land (not b) d)
  else if (t <? 40)%nat then Z.lxor (Z.lxor b c) d
  else if (t <? 60)%nat then
    Z.lor (Z.lor (Z.land b c) (Z.land b d)) (Z.land c d)
  else Z.lxor (Z.lxor b c) d.

Definition K (t : nat) : Z :=
  if (t <? 20)%nat then 0x5a827999
  else if (t <? 40)%nat then 0x6ed9eba1
  else if (t <? 60)%nat then 0x8f1bbcdc
  else 0xca62c1d6.

Definition state : Type := Z * Z * Z * Z * Z.

Definition round (w : list Z) (s : state) (t : nat) : state :=
  let '(a, b, c, d, e) := s in
  let temp := add (add (add (add (rotl 5 a) (f t b c d)) e) (K t)) (nth t w 0) in
  (temp, a, rotl 30 b, c, d).

Definition compress (h : state) (block : list Z) : state :=
  let w := schedule block in
  let '(a, b, c, d, e) := fold_left (round w) (seq 0 80) h in
  let '(h0, h1, h2, h3, h4) := h in
  (add h0 a, add h1 b, add h2 c, add h3 d, add h4 e).

Definition init : state :=
  (0x67452301, 0xefcdab89, 0x98badcfe, 0x10325476, 0xc3d2e1f0).

(** The 20 bytes of [hashlib.sha1(msg).digest()]. *)
Definition digest (msg : list Z) : list Z :=
  let '(h0, h1, h2, h3, h4) := fold_left compress (chunks 64 (pad msg)) init in
  to_bytes h0 ++ to_bytes h1 ++ to_bytes h2 ++ to_bytes h3 ++ to_bytes h4.

Definition hexdigest (msg : list Z) : string :=
  string_of_list_ascii (Hex.of_bytes (digest msg)).

End SHA1.

(** ** [hashlib.sha256] *)

Module SHA256.
Import Word.

(** The first 64 primes. *)
Definition is_prime (n : Z) : bool :=
  forallb (fun d => negb (n mod Z.of_nat d =? 0)) (seq 2 (Z.to_nat n - 2)).

Definition primes : list Z :=
  Eval vm_compute in
    firstn 64 (List.filter is_prime (map Z.of_nat (seq 2 400))).

(** Integer cube root of a number below [2^108], one bit at a time. *)
Definition cube_root (x : Z) : Z :=
  fold_left
    (fun r k => let c := r + 2 ^ Z.of_nat k in if c * c * c <=? x then c else r)
    (rev (seq 0 36)) 0.

(** Round constants: the first 32 bits of the fractional parts of the
    cube roots of the primes. *)
Definition K : list Z :=
  Eval vm_compute in map (fun p => cube_root (p * 2 ^ 96) mod modulus) primes.

(** Initial hash value: the same of their square roots. *)
Definition H0 : list Z :=
  Eval vm_compute in
    map (fun p => Z.sqrt (p * 2 ^ 64) mod modulus) (firstn 8 primes).

Definition ssig0 (x : Z) : Z :=
  Z.lxor (Z.lxor (rotr 7 x) (rotr 18 x)) (Z.shiftr x 3).
Definition ssig1 (x : Z) : Z :=
  Z.lxor (Z.lxor (rotr 17 x) (rotr 19 x)) (Z.shiftr x 10).
Definition bsig0 (x : Z) : Z :=
  Z.lxor (Z.lxor (rotr 2 x) (rotr 13 x)) (rotr 22 x).
Definition bsig1 (x : Z) : Z :=
  Z.lxor (Z.lxor (rotr 6 x) (rotr 11 x)) (rotr 25 x).
Definition ch (x y z : Z) : Z := Z.lxor (Z.land x y) (Z.land (not x) z).
Definition maj (x y z : Z) : Z :=
  Z.lxor (Z.lxor (Z.land x y) (Z.land x z)) (Z.land y z).

Definition schedule_step (w : list Z) (t : nat) : list Z :=
  let at_ k := nth (t - k) w 0 in
  w ++ [add (add (add (ssig1 (at_ 2%nat)) (at_ 7%nat)) (ssig0 (at_ 15%nat)))
            (at_ 16%nat)].

Definition schedule (block : list Z) : list Z :=
  fold_left schedule_step (seq 16 48) (block_words block).

Definition state : Type := Z * Z * Z * Z * Z * Z * Z * Z.

Definition round (w : list Z) (s : state) (t : nat) : state :=
  let '(a, b, c, d, e, f, g, h) := s in
  let t1 := add (add (add (add h (bsig1 e)) (ch e f g)) (nth t K 0)) (nth t w 0) in
  let t2 := add (bsig0 a) (maj a b c) in
  (add t1 t2, a, b, c, add d t1, e, f, g).

Definition compress (h : state) (block : list Z) : state :=
  let w := schedule block in
  let '(a, b, c, d, e, f, g, hh) := fold_left (round w) (seq 0 64) h in
  let '(h0, h1, h2, h3, h4, h5, h6, h7) := h in
  (add h0 a, add h1 b, add h2 c, add h3 d,
   add h4 e, add h5 f, add h6 g, add h7 hh).

Definition init : state :=
  match H0 with
  | [a; b; c; d; e; f; g; h] => (a, b, c, d, e, f, g, h)
  | _ => (0, 0, 0, 0, 0, 0, 0, 0)
  end.

(** The 32 bytes of [hashlib.sha256(msg).digest()]. *)
Definition digest (msg : list Z) : list Z :=
  let '(h0, h1, h2, h3, h4, h5, h6, h7) :=
    fold_left compress (chunks 64 (pad msg)) init in
  to_bytes h0 ++ to_bytes h1 ++ to_bytes h2 ++ to_bytes h3
    ++ to_bytes h4 ++ to_bytes h5 ++ to_bytes h6 ++ to_bytes h7.

Definition hexdigest (msg : list Z) : string :=
  string_of_list_ascii (Hex.of_bytes (digest msg)).

End SHA256.

(** [str.encode()]: the UTF-8 bytes of a string. *)
Definition encode (s : string) : list Z :=
  map (fun c => Z.of_N (N_of_ascii c)) (list_ascii_of_string s).

Example sha1_abc :
  SHA1.hexdigest (encode "abc") = "a9993e364706816aba3e25717850c26c9cd0d89d"%string.
Proof. vm_compute. reflexivity. Qed.

Example sha1_zero_seed :
  SHA1.hexdigest (repeat 0 16) = "e129f27c5103bc5cc44bcdf0a15e160d445066ff"%string.
Proof. vm_compute. reflexivity. Qed.

Example sha256_abc :
  SHA256.hexdigest (encode "abc")
  = "ba7816bf8f01cfea414140de5dae2223b00361a396177a9cb410ff61f20015ad"%string.
Proof. vm_compute. reflexivity. Qed.

Example sha256_secret123 :
  SHA256.hexdigest (encode "secret123")
  = "fcf730b6d95236ecd3c9fc2d92d7b6b2bb061514961aec041d6c7a7192f592e4"%string.
Proof. vm_compute. reflexivity. Qed.

Local Open Scope string_scope.

(** ** The platform: bson, the MongoDB server and [datetime]

    What the handlers call but the repository does not define.  An
    ObjectId is opaque: strings are read by [ObjectId(s)], which raises on
    a malformed one, and [str] gives a rendering that reads back.  The
    server sorts a cursor by a datetime key in some order that is
    ascending; how it breaks ties is its own business.  Rendering of
    instants is left to [datetime], and what a worksheet makes of a text
    to openpyxl. *)

(** An instant, in microseconds from the epoch: the resolution of a
    Python [datetime]. *)
Definition datetime : Type := Z.

Class Platform : Type := {
  ObjectId : Type;
  ObjectId_eq_dec :: EqDecision ObjectId;
  (** [ObjectId(s)], [None] when the constructor raises. *)
  ObjectId_of_str : string -> option ObjectId;
  (** [str(x)] *)
  str_of_ObjectId : ObjectId -> string;
  ObjectId_of_str_of_ObjectId :
    forall x, ObjectId_of_str (str_of_ObjectId x) = Some x;
  (** [cursor.sort(key, 1)] *)
  cursor_sort : forall {A : Type}, (A -> datetime) -> list A -> list A;
  cursor_sort_Permutation :
    forall (A : Type) (key : A -> datetime) (l : list A),
      Permutation (cursor_sort key l) l;
  cursor_sort_Sorted :
    forall (A : Type) (key : A -> datetime) (l : list A),
      Sorted (fun a b => key a <= key b) (cursor_sort key l);
  (** [datetime.fromtimestamp(ms / 1000.0).isoformat()], [None] when
      [fromtimestamp] raises (instant outside the supported years). *)
  fromtimestamp_isoformat : Z -> option string;
  (** [t.astimezone(timezone.utc).isoformat()] *)
  astimezone_utc_isoformat : datetime -> string;
  (** openpyxl's [Cell.check_string], which [ws.append] applies to every
      [str]: the text the cell keeps, [None] when it raises
      [IllegalCharacterError]. *)
  check_string : string -> option string;
  check_string_empty : check_string "" = Some ""
}.

(** ** Documents and requests *)

(** schemas.py, [class Exam]. *)
Record Exam : Type := {
  url : string;
  password_hash : string;
  slug : string;
  created_at : datetime;
  updated_at : datetime
}.

(** The request bodies of main.py. [HttpUrl] values are kept as the text
    that [str] gives for them. *)
Record ExamCreate : Type := { ec_url : string; ec_password : string }.
Record VerifyBody : Type := { vb_password : string }.
Record LogBody : Type := {
  lb_type : string;
  lb_details : option string;
  lb_ts : option Z
}.

(** The parts of a starlette [Request] the handlers read: the base URL,
    the peer address [(host, port)] and the [user-agent] header. *)
Record Request : Type := {
  base_url : string;
  client : option (string * Z);
  user_agent : option string
}.

(** A value given to [ws.append]: an [int], a [str] or [None]. *)
Inductive Cell : Type :=
| Int (n : Z)
| Str (s : string)
| Null.

(** Responses. *)
Record ExamCreated : Type := {
  c_id : string; c_slug : string; c_short_url : string; c_embed_url : string
}.
Record ExamFound : Type := {
  g_id : string; g_slug : string; g_embed_url : string
}.
Record Verified : Type := { ok : bool; message : string }.

(** The rows of the sheet, as its cells keep them, and the attachment
    header. *)
Record Export : Type := {
  title : string;
  rows : list (list Cell);
  content_disposition : string
}.

Inductive exn : Type :=
| HTTPException (status_code : Z) (detail : string)
| DuplicateKeyError
| TypeError
| ValueError
| OverflowError
| DocumentTooLarge
| IllegalCharacterError.

Inductive outcome (A : Type) : Type :=
| Return (a : A)
| Raise (e : exn).
Arguments Return {A} a.
Arguments Raise {A} e.

Section Handlers.
Context `{Platform}.

(** The event documents that [log_event] writes. *)
Record Examlog : Type := {
  exam_id : ObjectId;
  type_ : string;
  details : string;
  client_ts : option Z;
  server_ts : datetime;
  ip : option string;
  ua : option string
}.

(** A stored document: the fields and the [_id] the driver added. *)
Record Document (A : Type) : Type := { _id : ObjectId; fields : A }.
Arguments _id {A} d.
Arguments fields {A} d.

(** Modelled from the spec: the store behind [database.db] (database.py
    is not among the sources), a document database with the two
    collections [exam] and [examlog], each in insertion order. *)
Record Database : Type := {
  exam : list (Document Exam);
  examlog : list (Document Examlog)
}.

Inductive Filter : Type :=
| By_id (x : ObjectId)
| By_slug (s : string)
| By_exam_id (x : ObjectId).

(** Calls made on the store, most recent last. *)
Inductive Query : Type :=
| Find_one (collection : string) (q : Filter)
| Find_sorted (collection : string) (q : Filter)
| Insert_one (collection : string).

(** What a deployment fixes: the environment variable, whether openpyxl
    can be imported, and what the clock, [os.urandom] and the driver's
    ObjectId generator answer at their n-th use. *)
Record Env : Type := {
  FRONTEND_BASE_URL : option string;
  openpyxl : bool;
  utcnow : nat -> datetime;
  entropy : nat -> Byte.byte;
  new_ObjectId : nat -> ObjectId
}.

Record World : Type := {
  env : Env;
  (** [database.db], [None] when no database is configured *)
  db : option Database;
  clock_reads : nat;
  entropy_read : nat;
  ids_made : nat;
  queries : list Query
}.

Definition M (A : Type) : Type := World -> outcome A * World.

Definition ret {A} (a : A) : M A := fun w => (Return a, w).
Definition raise {A} (e : exn) : M A := fun w => (Raise e, w).
Definition bind {A B} (m : M A) (k : A -> M B) : M B :=
  fun w =>
    match m w with
    | (Return a, w') => k a w'
    | (Raise e, w') => (Raise e, w')
    end.

End Handlers.

Arguments _id {_ A} d.
Arguments fields {_ A} d.

Declare Scope handler_scope.
Delimit Scope handler_scope with handler.
Notation "x <- m ;; k" := (bind m (fun x => k))
  (at level 100, m at next level, right associativity) : handler_scope.
Notation "m ;; k" := (bind m (fun _ => k))
  (at level 100, right associativity) : handler_scope.

Local Open Scope handler_scope.

Section Service.
Context `{Platform}.

(** *** Effects *)

(** [datetime.now(timezone.utc)] *)
Definition now : M datetime :=
  fun w =>
    (Return (utcnow (env w) (clock_reads w)),
     {| env := env w; db := db w; clock_reads := S (clock_reads w);
        entropy_read := entropy_read w; ids_made := ids_made w;
        queries := queries w |}).

(** [os.urandom(n)] *)
Definition urandom (n : nat) : M (list Z) :=
  fun w =>
    (Return (map (fun i => Z.of_N (Byte.to_N (entropy (env w) i)))
                 (seq (entropy_read w) n)),
     {| env := env w; db := db w; clock_reads := clock_reads w;
        entropy_read := (entropy_read w + n)%nat; ids_made := ids_made w;
        queries := queries w |}).

(** [os.getenv("FRONTEND_BASE_URL")] *)
Definition getenv_FRONTEND_BASE_URL : M (option string) :=
  fun w => (Return (FRONTEND_BASE_URL (env w)), w).

(** [from openpyxl import Workbook], with the handler's [except]. *)
Definition import_Workbook : M unit :=
  fun w =>
    if openpyxl (env w) then (Return tt, w)
    else (Raise (HTTPException 500 "openpyxl not installed on server"), w).

(** [if db is None: raise HTTPException(500, ...)] *)
Definition require_db : M unit :=
  fun w =>
    match db w with
    | Some _ => (Return tt, w)
    | None => (Raise (HTTPException 500 "Database not configured"), w)
    end.

(** The world after the store served call [q] and holds [d]. *)
Definition note (q : Query) (d : option Database) (w : World) : World :=
  {| env := env w; db := d; clock_reads := clock_reads w;
     entropy_read := entropy_read w; ids_made := ids_made w;
     queries := (queries w ++ [q])%list |}.

Definition has_id {A} (x : ObjectId) (d : Document A) : bool :=
  bool_decide (_id d = x).

Definition matches_exam (q : Filter) : Document Exam -> bool :=
  match q with
  | By_id x => has_id x
  | By_slug s => fun d => bool_decide (slug (fields d) = s)
  | By_exam_id _ => fun _ => false
  end.

(** [db["exam"].find_one(q)]: the first match in insertion order. *)
Definition exam_find_one (q : Filter) : M (option (Document Exam)) :=
  fun w =>
    match db w with
    | None => (Raise TypeError, w)
    | Some d =>
        (Return (find (matches_exam q) (exam d)),
         note (Find_one "exam" q) (Some d) w)
    end.

(** [db["examlog"].find({"exam_id": x}).sort("server_ts", 1)] *)
Definition examlog_find_sorted (x : ObjectId) : M (list (Document Examlog)) :=
  fun w =>
    match db w with
    | None => (Raise TypeError, w)
    | Some d =>
        (Return
           (cursor_sort (fun l => server_ts (fields l))
              (List.filter (fun l => bool_decide (exam_id (fields l) = x))
                 (examlog d))),
         note (Find_sorted "examlog" (By_exam_id x)) (Some d) w)
    end.

(** The driver gives the document a new [_id]; the server refuses an
    [_id] the collection already holds. *)
Definition mint : M ObjectId :=
  fun w =>
    (Return (new_ObjectId (env w) (ids_made w)),
     {| env := env w; db := db w; clock_reads := clock_reads w;
        entropy_read := entropy_read w; ids_made := S (ids_made w);
        queries := queries w |}).

(** What the store keeps of a document, as bson encodes it.  A BSON
    datetime counts milliseconds, so an instant is kept rounded down to
    the millisecond; a BSON integer has at most 8 bytes, and the driver
    raises [OverflowError] on a larger one before anything is sent. *)
Definition bson_datetime (t : datetime) : datetime := (t / 1000 * 1000)%Z.

Definition bson_int (n : Z) : outcome Z :=
  if ((- 2 ^ 63 <=? n) && (n <? 2 ^ 63))%Z then Return n else Raise OverflowError.

Definition bson_exam (doc : Exam) : Exam :=
  {| url := url doc;
     password_hash := password_hash doc;
     slug := slug doc;
     created_at := bson_datetime (created_at doc);
     updated_at := bson_datetime (updated_at doc) |}.

(** [db["exam"].insert_one(doc).inserted_id].  An exam document is far
    below the size the server takes: its URL has passed [HttpUrl], its
    hash and slug are of fixed length. *)
Definition exam_insert_one (doc : Exam) : M ObjectId :=
  x <- mint ;;
  fun w =>
    match db w with
    | None => (Raise TypeError, w)
    | Some d =>
        if existsb (has_id x) (exam d)
        then (Raise DuplicateKeyError, note (Insert_one "exam") (Some d) w)
        else (Return x,
              note (Insert_one "exam")
                (Some {| exam := (exam d ++ [{| _id := x;
                                               fields := bson_exam doc |}])%list;
                         examlog := examlog d |}) w)
    end.

Definition bson_examlog_kept (evt : Examlog) : Examlog :=
  {| exam_id := exam_id evt;
     type_ := type_ evt;
     details := details evt;
     client_ts := client_ts evt;
     server_ts := bson_datetime (server_ts evt);
     ip := ip evt;
     ua := ua evt |}.

(** The size of an encoded document.  An element is a type byte, its
    key, a zero, and its value: 12 bytes for an ObjectId, 8 for a
    datetime, 4 for an integer of 32 bits and 8 for a larger one, nothing
    for [None], and for a text its length on 4 bytes, its bytes and a
    zero.  The document is its length on 4 bytes, its elements and a
    zero. *)
Definition element (key : string) (value : Z) : Z :=
  (1 + Z.of_nat (String.length key) + 1 + value)%Z.

Definition bson_str_size (s : string) : Z :=
  (4 + Z.of_nat (String.length s) + 1)%Z.

Definition bson_int_size (n : Z) : Z :=
  if ((- 2 ^ 31 <=? n) && (n <? 2 ^ 31))%Z then 4%Z else 8%Z.

Definition bson_size (evt : Examlog) : Z :=
  (4
   + element "exam_id" 12
   + element "type" (bson_str_size (type_ evt))
   + element "details" (bson_str_size (details evt))
   + element "client_ts"
       match client_ts evt with Some n => bson_int_size n | None => 0 end
   + element "server_ts" 8
   + element "ip"
       match ip evt with Some s => bson_str_size s | None => 0 end
   + element "ua"
       match ua evt with Some s => bson_str_size s | None => 0 end
   + element "_id" 12
   + 1)%Z.

(** The largest document the server takes, 16 MiB. *)
Definition max_bson_size : Z := 16777216.

(** A larger document is not stored: the driver raises
    [DocumentTooLarge], or, when the excess is within the 16 KiB the
    driver leaves to the command around the document, the server answers
    with a write error.  [DocumentTooLarge] stands for both. *)
Definition bson_sized (evt : Examlog) : outcome Examlog :=
  if (bson_size evt <=? max_bson_size)%Z
  then Return (bson_examlog_kept evt)
  else Raise DocumentTooLarge.

Definition bson_examlog (evt : Examlog) : outcome Examlog :=
  match client_ts evt with
  | Some n =>
      match bson_int n with
      | Return _ => bson_sized evt
      | Raise e => Raise e
      end
  | None => bson_sized evt
  end.

(** [db["examlog"].insert_one(evt)] *)
Definition examlog_insert_one (evt : Examlog) : M ObjectId :=
  x <- mint ;;
  fun w =>
    match db w with
    | None => (Raise TypeError, w)
    | Some d =>
        match bson_examlog evt with
        | Raise e => (Raise e, w)
        | Return kept =>
            if existsb (has_id x) (examlog d)
            then (Raise DuplicateKeyError, note (Insert_one "examlog") (Some d) w)
            else (Return x,
                  note (Insert_one "examlog")
                    (Some {| exam := exam d;
                             examlog := (examlog d ++ [{| _id := x;
                                                         fields := kept |}])%list |})
                    w)
        end
    end.

(** *** Utility helpers *)

Definition oid (obj_id : string) : M ObjectId :=
  match ObjectId_of_str obj_id with
  | Some x => ret x
  | None => raise (HTTPException 400 "Invalid ID")
  end.

Definition hash_password (pw : string) : string :=
  SHA256.hexdigest (encode pw).

Definition make_slug : M string :=
  seed <- urandom 16 ;;
  ret (substring 0 8 (SHA1.hexdigest seed)).

(** [s.rstrip('/')] *)
Fixpoint rstrip_slash (s : string) : string :=
  match s with
  | EmptyString => EmptyString
  | String c s' =>
      match rstrip_slash s' with
      | EmptyString =>
          if Ascii.eqb c "/" then EmptyString else String c EmptyString
      | r => String c r
      end
  end.

(** Truth value of an [Optional[str]] and of an [Optional[int]]. *)
Definition truthy_str (o : option string) : bool :=
  match o with
  | Some EmptyString | None => false
  | Some _ => true
  end.

Definition truthy_int (o : option Z) : bool :=
  match o with
  | Some n => negb (n =? 0)%Z
  | None => false
  end.

(** *** Handlers *)

Definition not_found {A} : M A := raise (HTTPException 404 "Exam not found").

Definition create_exam (body : ExamCreate) (request : Request) : M ExamCreated :=
  require_db ;;
  slug_ <- make_slug ;;
  let password_hash_ := hash_password (ec_password body) in
  created <- now ;;
  updated <- now ;;
  let exam_doc :=
    {| url := ec_url body;
       password_hash := password_hash_;
       slug := slug_;
       created_at := created;
       updated_at := updated |} in
  exam_id_ <- exam_insert_one exam_doc ;;
  frontend_base <- getenv_FRONTEND_BASE_URL ;;
  let path := "/x/" ++ slug_ in
  let short_url :=
    if truthy_str frontend_base
    then rstrip_slash (default "" frontend_base) ++ path
    else rstrip_slash (base_url request) ++ path in
  ret {| c_id := str_of_ObjectId exam_id_;
         c_slug := slug_;
         c_short_url := short_url;
         c_embed_url := ec_url body |}.

Definition get_exam_by_slug (slug_ : string) : M ExamFound :=
  require_db ;;
  doc <- exam_find_one (By_slug slug_) ;;
  match doc with
  | None => not_found
  | Some doc =>
      ret {| g_id := str_of_ObjectId (_id doc);
             g_slug := slug_;
             g_embed_url := url (fields doc) |}
  end.

Definition verify_exam_password (exam_id_ : string) (body : VerifyBody)
  : M Verified :=
  require_db ;;
  x <- oid exam_id_ ;;
  doc <- exam_find_one (By_id x) ;;
  match doc with
  | None => not_found
  | Some doc =>
      let ok_ :=
        bool_decide (password_hash (fields doc) = hash_password (vb_password body)) in
      ret {| ok := ok_; message := if ok_ then "OK" else "Invalid password" |}
  end.

Definition log_event (exam_id_ : string) (body : LogBody) (request : Request)
  : M bool :=
  require_db ;;
  x <- oid exam_id_ ;;
  doc <- exam_find_one (By_id x) ;;
  match doc with
  | None => not_found
  | Some _ =>
      x' <- oid exam_id_ ;;
      received <- now ;;
      let evt :=
        {| exam_id := x';
           type_ := lb_type body;
           details := if truthy_str (lb_details body)
                      then default "" (lb_details body) else "";
           client_ts := lb_ts body;
           server_ts := received;
           ip := match client request with
                 | Some (host, _) => Some host
                 | None => None
                 end;
           ua := user_agent request |} in
      examlog_insert_one evt ;;
      ret true
  end.

Definition header : list Cell :=
  [Str "#"; Str "Event"; Str "Details"; Str "Client Time"; Str "Server Time";
   Str "IP"; Str "User Agent"].

Definition cell_of (o : option string) : Cell :=
  match o with
  | Some s => Str s
  | None => Null
  end.

(** The [client_time] expression of the export loop; [fromtimestamp]
    raises [ValueError] on an instant it cannot represent. *)
Definition client_time (l : Examlog) : outcome string :=
  if truthy_int (client_ts l)
  then match fromtimestamp_isoformat (default 0 (client_ts l)) with
       | Some s => Return s
       | None => Raise ValueError
       end
  else Return "".

(** The [server_time] expression: every entry has a [server_ts], and a
    [datetime] is never false, so the [else ""] is not taken. *)
Definition server_time (l : Examlog) : string :=
  astimezone_utc_isoformat (server_ts l).

(** The list [ws.append] receives for entry [l] at position [i]. *)
Definition row (i : Z) (l : Examlog) (client_time_ : string) : list Cell :=
  [Int i;
   Str (type_ l);
   Str (details l);
   Str client_time_;
   Str (server_time l);
   cell_of (ip l);
   cell_of (ua l)].

(** What a cell keeps of a value given to [ws.append]. *)
Definition bind_value (c : Cell) : outcome Cell :=
  match c with
  | Str s =>
      match check_string s with
      | Some kept => Return (Str kept)
      | None => Raise IllegalCharacterError
      end
  | _ => Return c
  end.

(** [ws.append(cells)]: the cells of the new row, bound from left to
    right. *)
Fixpoint ws_append (cells : list Cell) : outcome (list Cell) :=
  match cells with
  | [] => Return []
  | c :: cells' =>
      match bind_value c with
      | Raise e => Raise e
      | Return kept =>
          match ws_append cells' with
          | Raise e => Raise e
          | Return rest => Return (kept :: rest)
          end
      end
  end.

(** The body of [for i, l in enumerate(logs, start=1)]: the rows
    appended to the sheet, or the exception that ends the loop. *)
Fixpoint data_rows (i : Z) (logs : list (Document Examlog))
  : outcome (list (list Cell)) :=
  match logs with
  | [] => Return []
  | l :: logs' =>
      match client_time (fields l) with
      | Raise e => Raise e
      | Return ct =>
          match ws_append (row i (fields l) ct) with
          | Raise e => Raise e
          | Return cells =>
              match data_rows (i + 1)%Z logs' with
              | Raise e => Raise e
              | Return rs => Return (cells :: rs)
              end
          end
      end
  end.

Definition lift {A} (o : outcome A) : M A := fun w => (o, w).

Definition export_log (exam_id_ : string) : M Export :=
  require_db ;;
  x <- oid exam_id_ ;;
  doc <- exam_find_one (By_id x) ;;
  match doc with
  | None => not_found
  | Some _ =>
      x' <- oid exam_id_ ;;
      logs <- examlog_find_sorted x' ;;
      import_Workbook ;;
      data <- lift (data_rows 1 logs) ;;
      ret {| title := "Proctor Log";
             rows := header :: data;
             content_disposition :=
               "attachment; filename=exam_" ++ exam_id_ ++ "_log.xlsx" |}
  end.

End Service.

(** ** A reference platform

    One platform on which the handlers run: ObjectIds as bson has them
    (twelve bytes, written as 24 hexadecimal digits), a stable merge sort
    for the server's cursor sort, and the proleptic Gregorian calendar of
    [datetime] with the machine's zone set to UTC.  Instants count
    microseconds from the epoch. *)

Module Reference.

Inductive nibble : Type :=
| h0 | h1 | h2 | h3 | h4 | h5 | h6 | h7
| h8 | h9 | ha | hb | hc | hd | he | hf.

Definition val (x : nibble) : Z :=
  match x with
  | h0 => 0 | h1 => 1 | h2 => 2 | h3 => 3 | h4 => 4 | h5 => 5 | h6 => 6
  | h7 => 7 | h8 => 8 | h9 => 9 | ha => 10 | hb => 11 | hc => 12
  | hd => 13 | he => 14 | hf => 15
  end%Z.

Definition of_val (n : Z) : option nibble :=
  match n with
  | 0 => Some h0 | 1 => Some h1 | 2 => Some h2 | 3 => Some h3
  | 4 => Some h4 | 5 => Some h5 | 6 => Some h6 | 7 => Some h7
  | 8 => Some h8 | 9 => Some h9 | 10 => Some ha | 11 => Some hb
  | 12 => Some hc | 13 => Some hd | 14 => Some he | 15 => Some hf
  | _ => None
  end%Z.

(** One hexadecimal digit, either case, as [bytes.fromhex] reads it. *)
Definition unhex (c : ascii) : option nibble :=
  let n := Z.of_N (N_of_ascii c) in
  if ((48 <=? n) && (n <=? 57))%Z then of_val (n - 48)
  else if ((97 <=? n) && (n <=? 102))%Z then of_val (n - 87)
  else if ((65 <=? n) && (n <=? 70))%Z then of_val (n - 55)
  else None.

Fixpoint tuple (A : Type) (n : nat) : Type :=
  match n with
  | O => unit
  | S n' => (A * tuple A n')%type
  end.

Fixpoint read (n : nat) (cs : list ascii) : option (tuple nibble n) :=
  match n, cs with
  | O, [] => Some tt
  | S n', c :: cs' =>
      match unhex c, read n' cs' with
      | Some x, Some t => Some (x, t)
      | _, _ => None
      end
  | _, _ => None
  end.

Fixpoint show (n : nat) : tuple nibble n -> list ascii :=
  match n with
  | O => fun _ => []
  | S n' => fun t => Hex.digit (val (fst t)) :: show n' (snd t)
  end.

(** The id whose digits spell [v] in base 16. *)
Fixpoint of_Z (n : nat) (v : Z) : tuple nibble n :=
  match n with
  | O => tt
  | S n' => (default h0 (of_val ((v / 16 ^ Z.of_nat n') mod 16)%Z), of_Z n' v)
  end.

(** The twelve-byte ids, read from their 24 digits.  (bson also takes a
    24-character text in which blanks stand between bytes and makes a
    shorter id of it, one that no document carries; such texts are
    refused here.) *)
Definition oid_t : Type := tuple nibble 24.
Definition oid_of_str (s : string) : option oid_t :=
  read 24 (list_ascii_of_string s).
Definition str_of_oid (x : oid_t) : string :=
  string_of_list_ascii (show 24 x).

Definition sort {A : Type} (key : A -> datetime) (l : list A) : list A :=
  @merge_sort A (fun a b => (key a <= key b)%Z)
    (fun a b => Z_le_dec (key a) (key b)) l.

(** *** Calendar *)

(** [n] in decimal on at least [width] digits. *)
Fixpoint decimal (width : nat) (n : Z) : string :=
  match width with
  | O => ""
  | S w' =>
      decimal w' (n / 10)
        ++ String (ascii_of_N (Z.to_N (48 + n mod 10))) ""
  end.

(** Year, month and day of the [days]-th day from 1970-01-01. *)
Definition civil (days : Z) : Z * Z * Z :=
  (let z := days + 719468 in
   let era := z / 146097 in
   let doe := z - era * 146097 in
   let yoe := (doe - doe / 1460 + doe / 36524 - doe / 146096) / 365 in
   let doy := doe - (365 * yoe + yoe / 4 - yoe / 100) in
   let mp := (5 * doy + 2) / 153 in
   let d := doy - (153 * mp + 2) / 5 + 1 in
   let m := if mp <? 10 then mp + 3 else mp - 9 in
   let y := yoe + era * 400 + (if m <=? 2 then 1 else 0) in
   (y, m, d))%Z.

(** [datetime.isoformat()] of the instant [us] microseconds from the
    epoch, in UTC; [None] outside of the years 1 to 9999. *)
Definition isoformat (us : Z) : option string :=
  let secs := (us / 1000000)%Z in
  let frac := (us mod 1000000)%Z in
  let '(y, m, d) := civil (secs / 86400)%Z in
  let sod := (secs mod 86400)%Z in
  let fraction := if (frac =? 0)%Z then "" else "." ++ decimal 6 frac in
  if ((1 <=? y) && (y <=? 9999))%Z then
    Some (decimal 4 y ++ "-" ++ decimal 2 m ++ "-" ++ decimal 2 d ++ "T"
          ++ decimal 2 (sod / 3600)%Z ++ ":" ++ decimal 2 (sod / 60 mod 60)%Z
          ++ ":" ++ decimal 2 (sod mod 60)%Z ++ fraction)
  else None.

(** [datetime.fromtimestamp(ms / 1000.0).isoformat()].  The division by
    [1000.0] is taken to be exact.  To tell a repeated hour
    [fromtimestamp] also converts the instant one day earlier, and raises
    when that one falls before year 1. *)
Definition fromtimestamp_iso (ms : Z) : option string :=
  match isoformat (ms * 1000 - 86400000000)%Z with
  | Some _ => isoformat (ms * 1000)%Z
  | None => None
  end.

(** A character [Cell.check_string] refuses: a control character other
    than tab, line feed and carriage return. *)
Definition illegal (c : ascii) : bool :=
  let n := N_of_ascii c in
  ((n <=? 8) || (11 <=? n) && (n <=? 12) || (14 <=? n) && (n <=? 31))%N.

(** Bytes [10xxxxxx] continue a UTF-8 character. *)
Definition continuation (c : ascii) : bool :=
  let n := N_of_ascii c in ((128 <=? n) && (n <? 192))%N.

(** [s[:n]], counting characters rather than bytes. *)
Fixpoint first_chars (n : Z) (s : string) : string :=
  match s with
  | EmptyString => EmptyString
  | String c s' =>
      if continuation c then String c (first_chars n s')
      else if (n <=? 0)%Z then EmptyString
      else String c (first_chars (n - 1) s')
  end.

(** The text is cut to 32767 characters, then refused if an illegal
    character is left in it. *)
Definition cell_text (s : string) : option string :=
  let kept := first_chars 32767 s in
  if existsb illegal (list_ascii_of_string kept) then None else Some kept.

Definition utc_iso (t : datetime) : string :=
  match isoformat t with
  | Some s => s ++ "+00:00"
  | None => ""
  end.

End Reference.

(** * Properties *)

(** ** Digests are lowercase hexadecimal *)

Lemma digit_is_lower_hex (n : Z) : Hex.is_lower_hex (Hex.digit n) = true.
Proof.
  unfold Hex.digit.
  destruct (nth_in_or_default (Z.to_nat n) Hex.digits "0"%char) as [Hin | ->];
    [| reflexivity].
  assert (Hall : forallb Hex.is_lower_hex Hex.digits = true) by reflexivity.
  rewrite forallb_forall in Hall. auto.
Qed.

Lemma of_bytes_is_lower_hex (bs : list Z) :
  forallb Hex.is_lower_hex (Hex.of_bytes bs) = true.
Proof.
  induction bs as [| b bs IH]; [reflexivity |].
  unfold Hex.of_bytes in *. cbn [map concat Hex.of_byte app forallb].
  rewrite !digit_is_lower_hex, IH. reflexivity.
Qed.

Lemma of_bytes_length (bs : list Z) :
  List.length (Hex.of_bytes bs) = (2 * List.length bs)%nat.
Proof.
  induction bs as [| b bs IH]; [reflexivity |].
  unfold Hex.of_bytes in *. cbn [map concat Hex.of_byte app List.length].
  rewrite IH. lia.
Qed.

Lemma sha1_digest_length (msg : list Z) : List.length (SHA1.digest msg) = 20%nat.
Proof.
  unfold SHA1.digest.
  destruct (fold_left SHA1.compress _ SHA1.init) as [[[[a b] c] d] e].
  reflexivity.
Qed.

Lemma sha256_digest_length (msg : list Z) : List.length (SHA256.digest msg) = 32%nat.
Proof.
  unfold SHA256.digest.
  destruct (fold_left SHA256.compress _ SHA256.init) as [[[[[[[a b] c] d] e] f] g] h].
  reflexivity.
Qed.

Lemma string_length_of_list (l : list ascii) :
  String.length (string_of_list_ascii l) = List.length l.
Proof. induction l as [| c l IH]; cbn; congruence. Qed.

(** [s[:n]] keeps the first [n] characters. *)
Lemma substring_0_firstn (n : nat) (s : string) :
  substring 0 n s = string_of_list_ascii (firstn n (list_ascii_of_string s)).
Proof.
  revert s. induction n as [| n IH]; intros [| c s]; cbn; try reflexivity.
  now rewrite IH.
Qed.

Lemma sha1_hexdigest_chars (msg : list Z) :
  List.length (list_ascii_of_string (SHA1.hexdigest msg)) = 40%nat
  /\ forallb Hex.is_lower_hex (list_ascii_of_string (SHA1.hexdigest msg)) = true.
Proof.
  unfold SHA1.hexdigest. rewrite list_ascii_of_string_of_list_ascii.
  rewrite of_bytes_length, sha1_digest_length. split; [reflexivity |].
  apply of_bytes_is_lower_hex.
Qed.

Lemma forallb_firstn {A} (f : A -> bool) (n : nat) (l : list A) :
  forallb f l = true -> forallb f (firstn n l) = true.
Proof.
  revert l. induction n as [| n IH]; intros [| a l]; cbn; try reflexivity.
  intros [Ha Hl]%andb_prop. rewrite Ha. cbn. auto.
Qed.

Lemma sha256_hexdigest_chars (msg : list Z) :
  List.length (list_ascii_of_string (SHA256.hexdigest msg)) = 64%nat
  /\ forallb Hex.is_lower_hex (list_ascii_of_string (SHA256.hexdigest msg)) = true.
Proof.
  unfold SHA256.hexdigest. rewrite list_ascii_of_string_of_list_ascii.
  rewrite of_bytes_length, sha256_digest_length. split; [reflexivity |].
  apply of_bytes_is_lower_hex.
Qed.

(** The first eight characters of a SHA-1 hex digest. *)
Lemma slug_shape (seed : list Z) :
  let s := substring 0 8 (SHA1.hexdigest seed) in
  String.length s = 8%nat
  /\ forallb Hex.is_lower_hex (list_ascii_of_string s) = true.
Proof.
  cbn zeta. rewrite substring_0_firstn.
  destruct (sha1_hexdigest_chars seed) as [Hlen Hhex].
  rewrite string_length_of_list, list_ascii_of_string_of_list_ascii.
  split.
  - rewrite length_firstn, Hlen. reflexivity.
  - now apply forallb_firstn.
Qed.

(** ** The reference platform is a platform *)

Module ReferenceFacts.
Import Reference.

Lemma unhex_digit (x : nibble) : unhex (Hex.digit (val x)) = Some x.
Proof. destruct x; reflexivity. Qed.

Lemma read_show (n : nat) (t : tuple nibble n) : read n (show n t) = Some t.
Proof.
  induction n as [| n IH]; cbn [read show].
  - now destruct t.
  - destruct t as [x t]. cbn [fst snd]. now rewrite unhex_digit, IH.
Qed.

Lemma oid_of_str_of_oid (x : oid_t) : oid_of_str (str_of_oid x) = Some x.
Proof.
  unfold oid_of_str, str_of_oid.
  rewrite list_ascii_of_string_of_list_ascii. apply read_show.
Qed.

#[export] Instance nibble_eq_dec : EqDecision nibble.
Proof. solve_decision. Defined.

#[export] Instance tuple_eq_dec (n : nat) : EqDecision (tuple nibble n).
Proof. induction n as [| n IH]; cbn; apply _. Defined.

#[export] Instance key_le_total {A} (key : A -> datetime) :
  Total (fun a b => (key a <= key b)%Z).
Proof. intros a b. unfold datetime in *. lia. Qed.

Lemma sort_Permutation {A} (key : A -> datetime) (l : list A) :
  Permutation (sort key l) l.
Proof. apply merge_sort_Permutation. Qed.

Lemma sort_Sorted {A} (key : A -> datetime) (l : list A) :
  Sorted (fun a b => (key a <= key b)%Z) (sort key l).
Proof. apply (Sorted_merge_sort _). Qed.

#[export] Instance platform : Platform := {|
  ObjectId := oid_t;
  ObjectId_eq_dec := tuple_eq_dec 24;
  ObjectId_of_str := oid_of_str;
  str_of_ObjectId := str_of_oid;
  ObjectId_of_str_of_ObjectId := oid_of_str_of_oid;
  cursor_sort := @sort;
  cursor_sort_Permutation := @sort_Permutation;
  cursor_sort_Sorted := @sort_Sorted;
  fromtimestamp_isoformat := fromtimestamp_iso;
  astimezone_utc_isoformat := utc_iso;
  check_string := cell_text;
  check_string_empty := eq_refl
|}.

End ReferenceFacts.

Arguments SHA1.hexdigest : simpl never.
Arguments SHA256.hexdigest : simpl never.
Opaque SHA1.hexdigest SHA256.hexdigest.
Arguments substring : simpl never.
Arguments String.append : simpl never.

(** ** What each handler does *)

Section Facts.
Context `{Platform}.

Ltac run :=
  unfold create_exam, get_exam_by_slug, verify_exam_password, log_event,
    export_log, exam_insert_one, examlog_insert_one, exam_find_one,
    examlog_find_sorted, make_slug, urandom, now, mint, oid, not_found,
    require_db, getenv_FRONTEND_BASE_URL, import_Workbook, lift, bind, ret,
    raise, note in *;
  cbn [fst snd env db clock_reads entropy_read ids_made queries] in *.

Ltac reduce :=
  cbn [fst snd env db clock_reads entropy_read ids_made queries] in *.

(** One case split on what the handler in the goal looks at next. *)
Ltac branch :=
  match goal with
  | |- context [match ObjectId_of_str ?s with _ => _ end] =>
      destruct (ObjectId_of_str s) eqn:?
  | |- context [match find ?p ?l with _ => _ end] =>
      destruct (find p l) eqn:?
  | |- context [if existsb ?p ?l then _ else _] =>
      destruct (existsb p l) eqn:?
  | |- context [if openpyxl ?e then _ else _] =>
      destruct (openpyxl e) eqn:?
  | |- context [match data_rows ?i ?l with _ => _ end] =>
      destruct (data_rows i l) eqn:?
  | |- context [match bson_examlog ?e with _ => _ end] =>
      destruct (bson_examlog e) eqn:?
  end.

(** The sixteen bytes [os.urandom] hands out next. *)
Definition next_seed (w : World) : list Z :=
  map (fun i => Z.of_N (Byte.to_N (entropy (env w) i)))
    (seq (entropy_read w) 16).

(** The identifier the driver mints next. *)
Definition next_id (w : World) : ObjectId :=
  new_ObjectId (env w) (ids_made w).

(** The document [create_exam] builds in world [w], as the store keeps
    it. *)
Definition exam_doc_of (body : ExamCreate) (w : World) : Exam :=
  {| url := ec_url body;
     password_hash := hash_password (ec_password body);
     slug := substring 0 8 (SHA1.hexdigest (next_seed w));
     created_at := bson_datetime (utcnow (env w) (clock_reads w));
     updated_at := bson_datetime (utcnow (env w) (S (clock_reads w))) |}.

Definition short_url_of (request : Request) (slug_ : string) (w : World)
  : string :=
  if truthy_str (FRONTEND_BASE_URL (env w))
  then rstrip_slash (default "" (FRONTEND_BASE_URL (env w))) ++ "/x/" ++ slug_
  else rstrip_slash (base_url request) ++ "/x/" ++ slug_.

Lemma next_seed_length (w : World) : List.length (next_seed w) = 16%nat.
Proof. unfold next_seed. now rewrite length_map, length_seq. Qed.

Lemma create_exam_Return body request w r w' :
  create_exam body request w = (Return r, w') ->
  exists d,
    db w = Some d
    /\ existsb (has_id (next_id w)) (exam d) = false
    /\ r = {| c_id := str_of_ObjectId (next_id w);
              c_slug := slug (exam_doc_of body w);
              c_short_url := short_url_of request (slug (exam_doc_of body w)) w;
              c_embed_url := ec_url body |}
    /\ db w' = Some {| exam := (exam d ++ [{| _id := next_id w;
                                             fields := exam_doc_of body w |}])%list;
                       examlog := examlog d |}
    /\ env w' = env w.
Proof.
  run. destruct (db w) as [d |] eqn:Hdb; [| discriminate].
  cbn [fst snd env db clock_reads entropy_read ids_made queries].
  rewrite Hdb.
  cbn [fst snd env db clock_reads entropy_read ids_made queries].
  destruct (existsb _ (exam d)) eqn:Hdup; [discriminate |].
  cbn [bson_exam url password_hash slug created_at updated_at].
  intros [= <- <-]. exists d. repeat split; try assumption; reflexivity.
Qed.

Lemma create_exam_succeeds body request w d :
  db w = Some d ->
  existsb (has_id (next_id w)) (exam d) = false ->
  exists r w', create_exam body request w = (Return r, w').
Proof.
  intros Hdb Hdup. run. rewrite Hdb.
  cbn [fst snd env db clock_reads entropy_read ids_made queries].
  rewrite Hdb.
  cbn [fst snd env db clock_reads entropy_read ids_made queries].
  unfold next_id in Hdup. rewrite Hdup. eauto.
Qed.

(** *** Lookups *)

Lemma find_app_found {A} (p : A -> bool) (l l' : list A) (a : A) :
  find p l = Some a -> find p (l ++ l')%list = Some a.
Proof.
  induction l as [| b l IH]; cbn; [discriminate |].
  destruct (p b); auto.
Qed.

Lemma find_app_fresh {A} (p : A -> bool) (l l' : list A) :
  existsb p l = false -> find p (l ++ l')%list = find p l'.
Proof.
  induction l as [| b l IH]; cbn; [reflexivity |].
  destruct (p b); cbn; [discriminate | auto].
Qed.

Lemma find_existsb {A} (p : A -> bool) (l : list A) :
  find p l = None -> existsb p l = false.
Proof.
  induction l as [| b l IH]; cbn; [reflexivity |].
  destruct (p b); cbn; [discriminate | auto].
Qed.

Definition found_response (slug_ : string) (doc : Document Exam) : ExamFound :=
  {| g_id := str_of_ObjectId (_id doc);
     g_slug := slug_;
     g_embed_url := url (fields doc) |}.

Lemma get_exam_by_slug_run slug_ w d :
  db w = Some d ->
  fst (get_exam_by_slug slug_ w)
  = match find (matches_exam (By_slug slug_)) (exam d) with
    | Some doc => Return (found_response slug_ doc)
    | None => Raise (HTTPException 404 "Exam not found")
    end.
Proof.
  intros Hdb. run. rewrite Hdb. cbn [fst snd db]. rewrite Hdb.
  now destruct (find _ (exam d)).
Qed.

Definition verdict (stored : string) (p : string) : Verified :=
  {| ok := bool_decide (stored = hash_password p);
     message := if bool_decide (stored = hash_password p)
                then "OK" else "Invalid password" |}.

Lemma verify_exam_password_run exam_id_ body w d x :
  db w = Some d ->
  ObjectId_of_str exam_id_ = Some x ->
  fst (verify_exam_password exam_id_ body w)
  = match find (has_id x) (exam d) with
    | Some doc => Return (verdict (password_hash (fields doc)) (vb_password body))
    | None => Raise (HTTPException 404 "Exam not found")
    end.
Proof.
  intros Hdb Hx. run. rewrite Hdb, Hx. cbn [fst snd db]. rewrite Hdb.
  cbn [matches_exam]. now destruct (find _ (exam d)).
Qed.

(** *** Requests served one after the other *)

Inductive Call : Type :=
| Create_exam (body : ExamCreate) (request : Request)
| Get_exam_by_slug (slug_ : string)
| Verify_exam_password (exam_id_ : string) (body : VerifyBody)
| Log_event (exam_id_ : string) (body : LogBody) (request : Request)
| Export_log (exam_id_ : string).

Definition serve (w : World) (c : Call) : World :=
  match c with
  | Create_exam body request => snd (create_exam body request w)
  | Get_exam_by_slug slug_ => snd (get_exam_by_slug slug_ w)
  | Verify_exam_password exam_id_ body => snd (verify_exam_password exam_id_ body w)
  | Log_event exam_id_ body request => snd (log_event exam_id_ body request w)
  | Export_log exam_id_ => snd (export_log exam_id_ w)
  end.

Definition serve_all (calls : list Call) (w : World) : World :=
  fold_left serve calls w.

(** The exam collection of [w'] is that of [w] with documents added at
    the end. *)
Definition exams_kept (w w' : World) : Prop :=
  exists d d' added,
    db w = Some d /\ db w' = Some d' /\ exam d' = (exam d ++ added)%list.

Lemma exams_kept_refl w d : db w = Some d -> exams_kept w w.
Proof. intros Hdb. exists d, d, []. now rewrite app_nil_r. Qed.

Lemma exams_kept_trans w1 w2 w3 :
  exams_kept w1 w2 -> exams_kept w2 w3 -> exams_kept w1 w3.
Proof.
  intros (d1 & d2 & l & H1 & H2 & E) (d2' & d3 & l' & H2' & H3 & E').
  rewrite H2 in H2'. injection H2' as <-.
  exists d1, d3, (l ++ l')%list. repeat split; try assumption.
  now rewrite E', E, app_assoc.
Qed.

Lemma serve_exams_kept w c d : db w = Some d -> exams_kept w (serve w c).
Proof.
  intros Hdb.
  destruct c; cbn [serve]; run; rewrite Hdb;
    repeat (reduce; first [rewrite Hdb | branch]);
    (eexists d, _, _; split; [exact Hdb |]; split;
     [first [exact Hdb | reflexivity] |];
     cbn [exam]; first [reflexivity | symmetry; apply app_nil_r]).
Qed.

Lemma serve_all_exams_kept calls w d :
  db w = Some d -> exams_kept w (serve_all calls w).
Proof.
  revert w d. induction calls as [| c calls IH]; intros w d Hdb; cbn.
  - eapply exams_kept_refl; eassumption.
  - pose proof (serve_exams_kept w c d Hdb) as Hstep.
    destruct Hstep as (d0 & d1 & l & H0 & H1 & E).
    eapply exams_kept_trans; [| eapply IH; eassumption].
    exists d0, d1, l. auto.
Qed.

(** *** A created exam stays where it was put *)

Lemma has_id_true {A} (x : ObjectId) (doc : Document A) :
  _id doc = x -> has_id x doc = true.
Proof. intros E. unfold has_id. now apply bool_decide_eq_true. Qed.

Lemma created_exam_found_by_id body request w r w1 calls :
  create_exam body request w = (Return r, w1) ->
  exists d2,
    db (serve_all calls w1) = Some d2
    /\ find (has_id (next_id w)) (exam d2)
       = Some {| _id := next_id w; fields := exam_doc_of body w |}.
Proof.
  intros Hrun.
  destruct (create_exam_Return _ _ _ _ _ Hrun) as (d & Hdb & Hfresh & _ & Hdb1 & _).
  destruct (serve_all_exams_kept calls w1 _ Hdb1) as (d1 & d2 & added & H1 & H2 & E).
  rewrite Hdb1 in H1. injection H1 as <-. cbn [exam] in E.
  exists d2. split; [assumption |]. rewrite E.
  apply find_app_found. rewrite find_app_fresh by assumption.
  cbn [find]. now rewrite has_id_true.
Qed.

Lemma created_exam_found_by_slug body request w r w1 calls d :
  create_exam body request w = (Return r, w1) ->
  db w = Some d ->
  existsb (matches_exam (By_slug (c_slug r))) (exam d) = false ->
  exists d2,
    db (serve_all calls w1) = Some d2
    /\ find (matches_exam (By_slug (c_slug r))) (exam d2)
       = Some {| _id := next_id w; fields := exam_doc_of body w |}.
Proof.
  intros Hrun Hdb Hfresh.
  destruct (create_exam_Return _ _ _ _ _ Hrun) as (d' & Hdb' & _ & -> & Hdb1 & _).
  rewrite Hdb in Hdb'. injection Hdb' as <-.
  destruct (serve_all_exams_kept calls w1 _ Hdb1) as (d1 & d2 & added & H1 & H2 & E).
  rewrite Hdb1 in H1. injection H1 as <-. cbn [exam] in E.
  cbn [c_slug] in *.
  exists d2. split; [assumption |]. rewrite E.
  apply find_app_found. rewrite find_app_fresh by assumption.
  cbn [find matches_exam fields]. now rewrite bool_decide_eq_true_2.
Qed.

(** *** [rstrip('/')] *)

Definition ends_with_slash (s : string) : bool :=
  match rev (list_ascii_of_string s) with
  | c :: _ => Ascii.eqb c "/"
  | [] => false
  end.


Lemma rstrip_slash_no_trailing (s : string) :
  ends_with_slash (rstrip_slash s) = false.
Proof.
  unfold ends_with_slash.
  induction s as [| c s IH]; [reflexivity |].
  cbn [rstrip_slash]. destruct (rstrip_slash s) as [| c' r] eqn:E.
  - destruct (Ascii.eqb_spec c "/") as [-> | Hne]; [reflexivity |].
    cbn. now apply Ascii.eqb_neq.
  - cbn [list_ascii_of_string rev] in *.
    destruct (rev (list_ascii_of_string r) ++ [c'])%list as [| a l] eqn:E';
      [now destruct (rev (list_ascii_of_string r)) |].
    cbn [app] in *. exact IH.
Qed.

(** *** Observing a world *)

Definition configured (w : World) : bool :=
  match db w with Some _ => true | None => false end.

(** The database of a configured world. *)
Definition stored (w : World) : Database :=
  default {| exam := []; examlog := [] |} (db w).

Lemma configured_db w : configured w = true -> db w = Some (stored w).
Proof. unfold configured, stored. now destruct (db w). Qed.

Lemma existsb_find {A} (p : A -> bool) (l : list A) :
  existsb p l = true -> find p l <> None.
Proof.
  induction l as [| a l IH]; cbn; [discriminate |].
  destruct (p a); [discriminate | exact IH].
Qed.

(** *** Exam lifecycle *)

(** C1. For an exam created by [create_exam], at any later time and for
    every password [p], [verify_exam_password] on the returned id answers
    [ok = true] with message "OK" exactly when [hash_password p] equals
    the hash of the password given at creation, and [ok = false] with
    message "Invalid password" otherwise; the original password is
    always accepted. *)
Theorem verify_password_iff_hash_equal body request w r w1 calls p :
  create_exam body request w = (Return r, w1) ->
  exists v,
    fst (verify_exam_password (c_id r) {| vb_password := p |}
           (serve_all calls w1)) = Return v
    /\ (ok v = true <-> hash_password p = hash_password (ec_password body))
    /\ (ok v = true -> message v = "OK")
    /\ (ok v = false -> message v = "Invalid password")
    /\ (p = ec_password body -> ok v = true).
Proof.
  intros Hrun.
  destruct (created_exam_found_by_id _ _ _ _ _ calls Hrun) as (d2 & Hdb2 & Hfind).
  destruct (create_exam_Return _ _ _ _ _ Hrun) as (_ & _ & _ & -> & _).
  cbn [c_id].
  rewrite (verify_exam_password_run _ _ _ d2 (next_id w) Hdb2
             (ObjectId_of_str_of_ObjectId _)), Hfind.
  eexists. split; [reflexivity |].
  cbn [verdict ok message fields exam_doc_of password_hash vb_password].
  case_bool_decide as E; repeat split; intros; subst;
    congruence.
Qed.

(** C3, as the code has it. The document [create_exam] inserts carries
    two successive readings of the UTC clock, [created_at] the first and
    [updated_at] the second, each kept by the store rounded down to the
    millisecond; the two stored fields are equal exactly when both
    readings fall in the same millisecond. *)
Theorem create_exam_timestamps body request w r w1 :
  create_exam body request w = (Return r, w1) ->
  exists d1 doc,
    db w1 = Some d1
    /\ last (exam d1) = Some doc
    /\ str_of_ObjectId (_id doc) = c_id r
    /\ created_at (fields doc)
       = (utcnow (env w) (clock_reads w) / 1000 * 1000)%Z
    /\ updated_at (fields doc)
       = (utcnow (env w) (S (clock_reads w)) / 1000 * 1000)%Z
    /\ (created_at (fields doc) = updated_at (fields doc)
        <-> (utcnow (env w) (clock_reads w) / 1000
             = utcnow (env w) (S (clock_reads w)) / 1000)%Z).
Proof.
  intros Hrun.
  destruct (create_exam_Return _ _ _ _ _ Hrun) as (d & Hdb & _ & -> & Hdb1 & _).
  eexists _, {| _id := next_id w; fields := exam_doc_of body w |}.
  split; [exact Hdb1 |]. cbn [exam]. rewrite last_snoc.
  unfold exam_doc_of, bson_datetime, datetime. cbn.
  repeat split; try reflexivity; lia.
Qed.

(** C5. The slug [create_exam] returns has exactly eight characters,
    all of them lowercase hexadecimal digits: it is the first eight
    characters of the SHA-1 hex digest of sixteen bytes from
    [os.urandom]. *)
Theorem create_exam_slug body request w r w1 :
  create_exam body request w = (Return r, w1) ->
  String.length (c_slug r) = 8%nat
  /\ forallb Hex.is_lower_hex (list_ascii_of_string (c_slug r)) = true
  /\ List.length (next_seed w) = 16%nat
  /\ c_slug r = substring 0 8 (SHA1.hexdigest (next_seed w)).
Proof.
  intros Hrun.
  destruct (create_exam_Return _ _ _ _ _ Hrun) as (d & _ & _ & -> & _).
  cbn [c_slug exam_doc_of slug].
  destruct (slug_shape (next_seed w)) as [Hlen Hhex].
  auto using next_seed_length.
Qed.

(** C6, as the code has it. When no exam already in the store carries
    the slug that [create_exam] drew, [get_exam_by_slug] on the returned
    slug answers, at any later time, with the exam id that [create_exam]
    returned and with the URL it was given. *)
Theorem get_exam_by_slug_after_create body request w r w1 calls d :
  create_exam body request w = (Return r, w1) ->
  db w = Some d ->
  existsb (matches_exam (By_slug (c_slug r))) (exam d) = false ->
  c_embed_url r = ec_url body
  /\ fst (get_exam_by_slug (c_slug r) (serve_all calls w1))
     = Return {| g_id := c_id r;
                 g_slug := c_slug r;
                 g_embed_url := c_embed_url r |}.
Proof.
  intros Hrun Hdb Hfresh.
  destruct (created_exam_found_by_slug _ _ _ _ _ calls _ Hrun Hdb Hfresh)
    as (d2 & Hdb2 & Hfind).
  destruct (create_exam_Return _ _ _ _ _ Hrun) as (_ & _ & _ & -> & _).
  cbn [c_embed_url c_slug c_id] in *. split; [reflexivity |].
  now rewrite (get_exam_by_slug_run _ _ d2 Hdb2), Hfind.
Qed.


(** An empty FRONTEND_BASE_URL counts as none. *)
Lemma create_exam_short_url_empty_base body request w r w1 :
  create_exam body request w = (Return r, w1) ->
  FRONTEND_BASE_URL (env w) = Some "" ->
  c_short_url r = rstrip_slash (base_url request) ++ "/x/" ++ c_slug r.
Proof.
  intros Hrun Hbase.
  destruct (create_exam_Return _ _ _ _ _ Hrun) as (d & _ & _ & -> & _).
  cbn [c_short_url c_slug]. unfold short_url_of. now rewrite Hbase.
Qed.

(** *** Event log *)

(** The entries of exam [x], in insertion order. *)
Definition events_of (x : ObjectId) (d : Database) : list (Document Examlog) :=
  List.filter (fun l => bool_decide (exam_id (fields l) = x)) (examlog d).

(** The same entries as the export query returns them. *)
Definition sorted_events_of (x : ObjectId) (d : Database)
  : list (Document Examlog) :=
  cursor_sort (fun l => server_ts (fields l)) (events_of x d).

Definition by_server_ts (a b : Document Examlog) : Prop :=
  (server_ts (fields a) <= server_ts (fields b))%Z.

#[local] Instance by_server_ts_trans : Transitive by_server_ts.
Proof. unfold by_server_ts, datetime. intros a b c. lia. Qed.

Lemma sorted_events_of_Permutation x d :
  Permutation (sorted_events_of x d) (events_of x d).
Proof. apply cursor_sort_Permutation. Qed.

Lemma sorted_events_of_Sorted x d :
  StronglySorted by_server_ts (sorted_events_of x d).
Proof.
  apply Sorted_StronglySorted; [exact _ |].
  apply (cursor_sort_Sorted _ (fun l => server_ts (fields l))).
Qed.

Definition attachment (exam_id_ : string) (data : list (list Cell)) : Export :=
  {| title := "Proctor Log";
     rows := header :: data;
     content_disposition :=
       "attachment; filename=exam_" ++ exam_id_ ++ "_log.xlsx" |}.

Lemma export_log_run exam_id_ x w d :
  db w = Some d ->
  ObjectId_of_str exam_id_ = Some x ->
  fst (export_log exam_id_ w)
  = match find (has_id x) (exam d) with
    | None => Raise (HTTPException 404 "Exam not found")
    | Some _ =>
        if openpyxl (env w)
        then match data_rows 1 (sorted_events_of x d) with
             | Return data => Return (attachment exam_id_ data)
             | Raise e => Raise e
             end
        else Raise (HTTPException 500 "openpyxl not installed on server")
    end.
Proof.
  intros Hdb Hx. run. rewrite Hdb, Hx. reduce. rewrite Hdb.
  cbn [matches_exam]. destruct (find _ (exam d)); [| reflexivity].
  reduce. rewrite ?Hdb. reduce.
  unfold sorted_events_of, events_of.
  destruct (openpyxl (env w)); [| reflexivity].
  now destruct (data_rows 1 _).
Qed.

Lemma export_log_Return exam_id_ w e w' :
  export_log exam_id_ w = (Return e, w') ->
  exists d x data,
    db w = Some d
    /\ ObjectId_of_str exam_id_ = Some x
    /\ data_rows 1 (sorted_events_of x d) = Return data
    /\ e = attachment exam_id_ data.
Proof.
  intros Hrun. apply (f_equal fst) in Hrun. cbn [fst] in Hrun.
  destruct (db w) as [d |] eqn:Hdb;
    [| run; rewrite Hdb in Hrun; discriminate].
  destruct (ObjectId_of_str exam_id_) as [x |] eqn:Hx;
    [| run; rewrite Hdb, Hx in Hrun; discriminate].
  rewrite (export_log_run _ x _ d Hdb Hx) in Hrun.
  destruct (find _ (exam d)); [| discriminate].
  destruct (openpyxl (env w)); [| discriminate].
  destruct (data_rows 1 _) as [data |] eqn:Hdata; [| discriminate].
  injection Hrun as <-. now exists d, x, data.
Qed.

(** A client timestamp that the export can show: none, zero, or an
    instant [datetime.fromtimestamp] accepts. *)
Definition showable (ts : option Z) : Prop :=
  match ts with
  | Some t => t = 0%Z \/ fromtimestamp_isoformat t <> None
  | None => True
  end.

Lemma client_time_showable l :
  showable (client_ts l) -> exists ct, client_time l = Return ct.
Proof.
  unfold showable, client_time, truthy_int.
  destruct (client_ts l) as [t |]; [| intros _; now exists ""].
  destruct (Z.eqb_spec t 0) as [-> | Hne]; cbn;
    [intros _; now exists "" |].
  intros [? | Hok]; [contradiction |].
  destruct (fromtimestamp_isoformat t) as [s |]; [now exists s | contradiction].
Qed.

Definition showableb (ts : option Z) : bool :=
  match ts with
  | Some t =>
      (t =? 0)%Z
      || match fromtimestamp_isoformat t with Some _ => true | None => false end
  | None => true
  end.

Lemma showableb_showable ts : showableb ts = true -> showable ts.
Proof.
  destruct ts as [t |]; cbn; [| trivial].
  destruct (Z.eqb_spec t 0) as [-> | _]; cbn; [now left |].
  destruct (fromtimestamp_isoformat t); [now right | discriminate].
Qed.

Lemma forallb_showable (logs : list (Document Examlog)) :
  forallb (fun l => showableb (client_ts (fields l))) logs = true ->
  forall l, In l logs -> showable (client_ts (fields l)).
Proof.
  rewrite forallb_forall. intros Hall l Hl. apply showableb_showable. auto.
Qed.

Lemma client_time_empty l :
  client_ts l = None \/ client_ts l = Some 0%Z -> client_time l = Return "".
Proof. unfold client_time. now intros [-> | ->]. Qed.

(** The six values that follow the number in the row of entry [l]. *)
Definition texts (l : Examlog) (client_time_ : string) : list Cell :=
  [Str (type_ l); Str (details l); Str client_time_; Str (server_time l);
   cell_of (ip l); cell_of (ua l)].

(** The number is kept as it is; the rest is bound cell by cell. *)
Lemma ws_append_row i l ct :
  ws_append (row i l ct)
  = match ws_append (texts l ct) with
    | Return cells => Return (Int i :: cells)
    | Raise e => Raise e
    end.
Proof. reflexivity. Qed.

Lemma ws_append_Raise cells e :
  ws_append cells = Raise e -> e = IllegalCharacterError.
Proof.
  induction cells as [| c cells IH]; cbn [ws_append]; [discriminate |].
  destruct c as [n | s |]; cbn [bind_value].
  - destruct (ws_append cells); [discriminate |]. intros [= <-]. now apply IH.
  - destruct (check_string s); [| now intros [= <-]].
    destruct (ws_append cells); [discriminate |]. intros [= <-]. now apply IH.
  - destruct (ws_append cells); [discriminate |]. intros [= <-]. now apply IH.
Qed.

(** A text the worksheet takes. *)
Definition accepted (s : string) : Prop := check_string s <> None.

Definition accepted_cell (c : Cell) : Prop :=
  match c with
  | Str s => accepted s
  | _ => True
  end.

Lemma ws_append_Return_iff cells :
  (exists kept, ws_append cells = Return kept) <-> Forall accepted_cell cells.
Proof.
  induction cells as [| c cells IH]; cbn [ws_append].
  - split; [constructor | now exists []].
  - rewrite Forall_cons, <- IH. clear IH. split.
    + intros [kept Hk]. split.
      * destruct c as [n | s |]; cbn; trivial.
        unfold accepted. intros E. cbn [bind_value] in Hk.
        rewrite E in Hk. discriminate.
      * destruct (bind_value c); [| discriminate].
        destruct (ws_append cells); [eauto | discriminate].
    + intros [Hc [rest ->]].
      destruct c as [n | s |]; cbn [bind_value]; [eauto | | eauto].
      unfold accepted_cell, accepted in Hc.
      destruct (check_string s); [eauto | contradiction].
Qed.

(** An entry whose texts the worksheet takes, the rendering of its
    client time included. *)
Definition appendable (l : Examlog) : Prop :=
  accepted (type_ l)
  /\ accepted (details l)
  /\ (forall ct, client_time l = Return ct -> accepted ct)
  /\ accepted (astimezone_utc_isoformat (server_ts l))
  /\ (forall s, ip l = Some s -> accepted s)
  /\ (forall s, ua l = Some s -> accepted s).

Lemma accepted_cell_of (o : option string) :
  accepted_cell (cell_of o) <-> forall s, o = Some s -> accepted s.
Proof.
  destruct o as [s |]; cbn.
  - split; [now intros H0 s' [= <-] | auto].
  - split; [discriminate | trivial].
Qed.

Lemma appendable_texts l ct :
  client_time l = Return ct ->
  (appendable l <-> Forall accepted_cell (texts l ct)).
Proof.
  intros Hct. unfold appendable, texts.
  rewrite !Forall_cons, Forall_nil, !accepted_cell_of. cbn [accepted_cell].
  split.
  - intros (H1 & H2 & H3 & H4 & H5 & H6). auto 10.
  - intros (H1 & H2 & H3 & H4 & H5 & H6 & _). repeat split; auto.
    intros ct' Hct'. congruence.
Qed.

(** An entry the export loop gets through: its client time renders and
    the worksheet takes its row. *)
Definition exportable (l : Examlog) : Prop :=
  (exists ct, client_time l = Return ct) /\ appendable l.

Lemma data_rows_Return logs :
  forall i data,
    data_rows i logs = Return data ->
    List.length data = List.length logs
    /\ forall (k : nat) l,
        logs !! k = Some l ->
        exists ct cells,
          client_time (fields l) = Return ct
          /\ ws_append (texts (fields l) ct) = Return cells
          /\ data !! k = Some (Int (i + Z.of_nat k) :: cells).
Proof.
  induction logs as [| l0 logs IH]; intros i data; cbn [data_rows].
  - intros [= <-]. split; [reflexivity |]. intros k l Hk. discriminate.
  - destruct (client_time (fields l0)) as [ct0 |] eqn:Hct; [| discriminate].
    rewrite ws_append_row.
    destruct (ws_append (texts (fields l0) ct0)) as [cells0 |] eqn:Hcells;
      [| discriminate].
    destruct (data_rows (i + 1) logs) as [rs |] eqn:Hrs; [| discriminate].
    intros [= <-]. destruct (IH _ _ Hrs) as [Hlen Hrows].
    split; [cbn; congruence |].
    intros [| k] l Hk; cbn in Hk.
    + injection Hk as <-. exists ct0, cells0. repeat split; try assumption.
      cbn. now rewrite Z.add_0_r.
    + destruct (Hrows k l Hk) as (ct & cells & Hc & Ha & Hr). exists ct, cells.
      repeat split; try assumption. rewrite lookup_cons.
      etrans; [exact Hr |]. do 3 f_equal. lia.
Qed.

Lemma data_rows_total logs :
  forall i,
    (forall l, In l logs -> exportable (fields l)) ->
    exists data, data_rows i logs = Return data.
Proof.
  induction logs as [| l0 logs IH]; intros i Hall; cbn [data_rows].
  - now exists [].
  - destruct (Hall l0 (or_introl eq_refl)) as [[ct Hct] Happ].
    rewrite Hct, ws_append_row.
    apply (appendable_texts _ _ Hct), ws_append_Return_iff in Happ as [cells ->].
    destruct (IH (i + 1)%Z) as [rs ->]; [intros l Hl; apply Hall; now right |].
    eauto.
Qed.

Lemma data_rows_Return_all logs :
  forall i data,
    data_rows i logs = Return data ->
    forall l, In l logs -> exportable (fields l).
Proof.
  intros i data Hdata l Hl.
  apply list_elem_of_In, list_elem_of_lookup in Hl as [k Hk].
  destruct (data_rows_Return _ _ _ Hdata) as [_ Hrows].
  destruct (Hrows k l Hk) as (ct & cells & Hct & Hcells & _).
  split; [eauto |]. apply (appendable_texts _ _ Hct), ws_append_Return_iff.
  eauto.
Qed.

Lemma client_time_Raise l e :
  client_time l = Raise e -> e = ValueError /\ ~ showable (client_ts l).
Proof.
  unfold client_time, showable, truthy_int.
  destruct (client_ts l) as [t |]; [| discriminate].
  destruct (Z.eqb_spec t 0) as [-> | Hne]; cbn; [discriminate |].
  destruct (fromtimestamp_isoformat t); [discriminate |].
  intros [= <-]. split; [reflexivity |]. intros [? | ?]; contradiction.
Qed.

Lemma data_rows_Raise logs :
  forall i e,
    data_rows i logs = Raise e ->
    e = ValueError \/ e = IllegalCharacterError.
Proof.
  induction logs as [| l0 logs IH]; intros i e; cbn [data_rows];
    [discriminate |].
  destruct (client_time (fields l0)) as [ct |] eqn:Hct.
  - destruct (ws_append (row i (fields l0) ct)) as [cells |] eqn:Hcells.
    + destruct (data_rows (i + 1) logs) as [rs |] eqn:Hrs; [discriminate |].
      intros [= <-]. eapply IH; eassumption.
    + intros [= <-]. right. eapply ws_append_Raise; eassumption.
  - intros [= <-]. left. now apply client_time_Raise in Hct.
Qed.

(** The same, as tests. *)
Definition acceptedb (s : string) : bool :=
  match check_string s with Some _ => true | None => false end.

Definition exportableb (l : Examlog) : bool :=
  match client_time l with
  | Return ct =>
      forallb
        (fun c => match c with Str s => acceptedb s | _ => true end)
        (texts l ct)
  | Raise _ => false
  end.

Lemma exportableb_exportable l : exportableb l = true -> exportable l.
Proof.
  unfold exportableb, exportable.
  destruct (client_time l) as [ct |] eqn:Hct; [| discriminate].
  intros Hall. split; [eauto |]. apply (appendable_texts _ _ Hct).
  rewrite forallb_forall in Hall. apply Forall_forall. intros c Hc.
  apply list_elem_of_In in Hc. specialize (Hall c Hc).
  destruct c as [n | s |]; cbn; trivial.
  unfold accepted, acceptedb in *. now destruct (check_string s).
Qed.

Lemma forallb_exportable (logs : list (Document Examlog)) :
  forallb (fun l => exportableb (fields l)) logs = true ->
  forall l, In l logs -> exportable (fields l).
Proof.
  rewrite forallb_forall. intros Hall l Hl. apply exportableb_exportable. auto.
Qed.

(** A client timestamp that fits a BSON integer: none, or one of at
    most 8 bytes. *)
Definition fits (ts : option Z) : Prop :=
  forall n, ts = Some n -> (- 2 ^ 63 <= n < 2 ^ 63)%Z.

Lemma bson_int_Return n : (- 2 ^ 63 <= n < 2 ^ 63)%Z <-> bson_int n = Return n.
Proof.
  unfold bson_int.
  destruct (Z.leb_spec (- 2 ^ 63) n), (Z.ltb_spec n (2 ^ 63)); cbn;
    split; try lia; try discriminate; reflexivity.
Qed.

(** A document of at most 16 MiB. *)
Definition sized (evt : Examlog) : Prop := (bson_size evt <= max_bson_size)%Z.

Lemma bson_sized_Return evt kept :
  bson_sized evt = Return kept <-> kept = bson_examlog_kept evt /\ sized evt.
Proof.
  unfold bson_sized, sized.
  destruct (Z.leb_spec (bson_size evt) max_bson_size); split.
  - now intros [= <-].
  - now intros [-> _].
  - discriminate.
  - intros [_ Hle]. lia.
Qed.

Lemma bson_examlog_Return evt kept :
  bson_examlog evt = Return kept
  <-> kept = bson_examlog_kept evt /\ fits (client_ts evt) /\ sized evt.
Proof.
  unfold bson_examlog, fits. destruct (client_ts evt) as [n |].
  - destruct (bson_int n) as [m |] eqn:Hn.
    + assert (Hfit : (- 2 ^ 63 <= n < 2 ^ 63)%Z).
      { apply bson_int_Return. unfold bson_int in *.
        now destruct ((- 2 ^ 63 <=? n) && (n <? 2 ^ 63))%Z. }
      rewrite bson_sized_Return. split.
      * intros [-> Hs]. split; [reflexivity |]. split; [| exact Hs].
        now intros n' [= <-].
      * now intros (-> & _ & Hs).
    + split; [discriminate |]. intros (_ & Hfit & _).
      specialize (Hfit n eq_refl). apply bson_int_Return in Hfit. congruence.
  - rewrite bson_sized_Return. split.
    + intros [-> Hs]. split; [reflexivity |]. split; [discriminate | exact Hs].
    + now intros (-> & _ & Hs).
Qed.

Lemma bson_examlog_Raise evt e :
  bson_examlog evt = Raise e ->
  (e = OverflowError /\ ~ fits (client_ts evt))
  \/ (e = DocumentTooLarge /\ ~ sized evt).
Proof.
  intros Hraise.
  assert (Hsized : bson_sized evt = Raise e -> e = DocumentTooLarge /\ ~ sized evt).
  { unfold bson_sized, sized.
    destruct (Z.leb_spec (bson_size evt) max_bson_size); [discriminate |].
    intros [= <-]. split; [reflexivity | lia]. }
  revert Hraise. unfold bson_examlog, fits.
  destruct (client_ts evt) as [n |]; [| now right; apply Hsized].
  destruct (bson_int n) as [m |] eqn:Hn; [now right; apply Hsized |].
  intros [= <-]. unfold bson_int in Hn.
  destruct ((- 2 ^ 63 <=? n) && (n <? 2 ^ 63))%Z eqn:Hb; [discriminate |].
  injection Hn as <-. left. split; [reflexivity |]. intros Hfit.
  specialize (Hfit n eq_refl). lia.
Qed.

(** The entry [log_event] builds in world [w] for exam [x], as the store
    keeps it. *)
Definition event_of (x : ObjectId) (body : LogBody) (request : Request)
    (w : World) : Examlog :=
  {| exam_id := x;
     type_ := lb_type body;
     details := if truthy_str (lb_details body)
                then default "" (lb_details body) else "";
     client_ts := lb_ts body;
     server_ts := bson_datetime (utcnow (env w) (clock_reads w));
     ip := match client request with
           | Some (host, _) => Some host
           | None => None
           end;
     ua := user_agent request |}.

Lemma log_event_Return exam_id_ body request w b w' :
  log_event exam_id_ body request w = (Return b, w') ->
  exists d x,
    db w = Some d
    /\ ObjectId_of_str exam_id_ = Some x
    /\ find (has_id x) (exam d) <> None
    /\ db w' = Some {| exam := exam d;
                       examlog := (examlog d
                                   ++ [{| _id := next_id w;
                                          fields := event_of x body request w |}])%list |}.
Proof.
  run. destruct (db w) as [d |] eqn:Hdb; [| discriminate].
  repeat (reduce; first [rewrite Hdb | branch]); try discriminate.
  match goal with
  | Hk : bson_examlog _ = Return _ |- _ =>
      apply bson_examlog_Return in Hk as [-> _]
  end.
  intros [= <- <-]. exists d. eexists. repeat split; try eassumption.
  cbn [matches_exam] in *. congruence.
Qed.

(** The size in bytes of the document [log_event] hands to the store:
    106 bytes for the frame, the eight keys, the two ObjectIds, the
    datetime and the frames of type and details; then the bytes of the
    type and of the details, 4 or 8 for a timestamp, and for the peer's
    host and the user agent, when there, 5 and their bytes. *)
Definition document_size (body : LogBody) (request : Request) : Z :=
  (106
   + Z.of_nat (String.length (lb_type body))
   + match lb_details body with
     | Some s => Z.of_nat (String.length s)
     | None => 0
     end
   + match lb_ts body with
     | Some n => if (n <? - 2 ^ 31) || (2 ^ 31 <=? n) then 8 else 4
     | None => 0
     end
   + match client request with
     | Some (host, _) => 5 + Z.of_nat (String.length host)
     | None => 0
     end
   + match user_agent request with
     | Some s => 5 + Z.of_nat (String.length s)
     | None => 0
     end)%Z.

Lemma bson_size_log_event x body request t :
  bson_size
    {| exam_id := x;
       type_ := lb_type body;
       details := if truthy_str (lb_details body)
                  then default "" (lb_details body) else "";
       client_ts := lb_ts body;
       server_ts := t;
       ip := match client request with
             | Some (host, _) => Some host
             | None => None
             end;
       ua := user_agent request |}
  = document_size body request.
Proof.
  unfold bson_size, document_size, element, bson_str_size, bson_int_size.
  cbn [type_ details client_ts ip ua String.length].
  destruct (lb_details body) as [[| c s] |], (lb_ts body) as [n |],
    (client request) as [[host port] |], (user_agent request) as [a |];
    cbn [truthy_str default from_option id String.length negb];
    try (destruct (Z.leb_spec (- 2 ^ 31) n), (Z.ltb_spec n (2 ^ 31)),
           (Z.ltb_spec n (- 2 ^ 31)), (Z.leb_spec (2 ^ 31) n);
         cbn [andb orb]; try lia);
    lia.
Qed.

(** An event within the limits of the store. *)
Definition storable (body : LogBody) (request : Request) : Prop :=
  fits (lb_ts body) /\ (document_size body request <= 16777216)%Z.

Lemma log_event_Return_fits exam_id_ body request w b w' :
  log_event exam_id_ body request w = (Return b, w') ->
  storable body request.
Proof.
  run. destruct (db w) as [d |] eqn:Hdb; [| discriminate].
  repeat (reduce; first [rewrite Hdb | branch]); try discriminate.
  match goal with
  | Hk : bson_examlog _ = Return _ |- _ =>
      apply bson_examlog_Return in Hk as (_ & Hfit & Hsize)
  end.
  intros _. split; [exact Hfit |].
  unfold sized in Hsize. now rewrite bson_size_log_event in Hsize.
Qed.

(** A logged event is one more entry of its exam. *)
Lemma log_event_counts exam_id_ body request w b w' :
  log_event exam_id_ body request w = (Return b, w') ->
  exists d d' x,
    db w = Some d /\ db w' = Some d'
    /\ ObjectId_of_str exam_id_ = Some x
    /\ List.length (events_of x d') = S (List.length (events_of x d))
    /\ forall y, y <> x -> events_of y d' = events_of y d.
Proof.
  intros Hrun.
  destruct (log_event_Return _ _ _ _ _ _ Hrun) as (d & x & Hdb & Hx & _ & Hdb').
  eexists d, _, x.
  split; [exact Hdb |]. split; [exact Hdb' |]. split; [exact Hx |]. split.
  - unfold events_of. cbn [examlog]. rewrite List.filter_app, length_app.
    cbn [List.filter fields event_of exam_id].
    rewrite bool_decide_eq_true_2 by reflexivity. cbn. lia.
  - intros y Hy. unfold events_of. cbn [examlog]. rewrite List.filter_app.
    cbn [List.filter fields event_of exam_id].
    rewrite bool_decide_eq_false_2 by congruence. apply app_nil_r.
Qed.

Lemma exportable_iff l :
  exportable l <-> showable (client_ts l) /\ appendable l.
Proof.
  unfold exportable. split; intros [Hct Happ]; (split; [| assumption]).
  - destruct Hct as [ct Hct]. unfold client_time, showable, truthy_int in *.
    destruct (client_ts l) as [t |]; [| trivial].
    destruct (Z.eqb_spec t 0); [now left |]. cbn in Hct. right.
    now destruct (fromtimestamp_isoformat t).
  - now apply client_time_showable.
Qed.

(** C2, as the code has it. For an exam with N logged events, with
    openpyxl importable, each event having a client timestamp the export
    can show and texts the worksheet takes, [export_log] produces the
    header row followed by exactly N data rows, one per stored entry of
    the exam, in non-decreasing order of [server_ts]; the row at
    position [i] (counting from 1) is the number [i] followed by what the
    worksheet keeps of the entry's type, details, client time, server
    time, origin address and user agent. *)
Theorem export_log_table exam_id_ x w d :
  db w = Some d ->
  ObjectId_of_str exam_id_ = Some x ->
  find (has_id x) (exam d) <> None ->
  openpyxl (env w) = true ->
  (forall l, In l (events_of x d) ->
             showable (client_ts (fields l)) /\ appendable (fields l)) ->
  exists logs data e,
    fst (export_log exam_id_ w) = Return e
    /\ rows e = header :: data
    /\ List.length data = List.length (events_of x d)
    /\ Permutation logs (events_of x d)
    /\ StronglySorted
         (fun a b => (server_ts (fields a) <= server_ts (fields b))%Z) logs
    /\ forall (k : nat) l,
        logs !! k = Some l ->
        exists ct cells,
          client_time (fields l) = Return ct
          /\ ws_append
               [Str (type_ (fields l));
                Str (details (fields l));
                Str ct;
                Str (astimezone_utc_isoformat (server_ts (fields l)));
                cell_of (ip (fields l));
                cell_of (ua (fields l))]
             = Return cells
          /\ data !! k = Some (Int (Z.of_nat (S k)) :: cells).
Proof.
  intros Hdb Hx Hexam Hxl Hshow.
  pose proof (sorted_events_of_Permutation x d) as Hperm.
  destruct (data_rows_total (sorted_events_of x d) 1) as [data Hdata].
  { intros l Hl. apply exportable_iff, Hshow.
    eapply Permutation_in; eassumption. }
  destruct (data_rows_Return _ _ _ Hdata) as [Hlen Hrows].
  exists (sorted_events_of x d), data, (attachment exam_id_ data).
  rewrite (export_log_run _ x _ d Hdb Hx), Hxl, Hdata.
  destruct (find _ (exam d)); [| contradiction].
  split; [reflexivity |]. split; [reflexivity |].
  split; [rewrite Hlen; now apply Permutation_length |].
  split; [assumption |]. split; [apply sorted_events_of_Sorted |].
  intros k l Hk. destruct (Hrows k l Hk) as (ct & cells & Hc & Ha & Hr).
  exists ct, cells. split; [assumption |]. split; [exact Ha |].
  rewrite Hr. do 3 f_equal. lia.
Qed.

(** C7, as the code has it. For an exam that exists and has no logged
    event, with openpyxl importable, [export_log] succeeds and the
    sheet is the header row alone: number, event type, details, client
    time, server time, origin address, user agent. *)
Theorem export_log_no_events exam_id_ x w d :
  db w = Some d ->
  ObjectId_of_str exam_id_ = Some x ->
  find (has_id x) (exam d) <> None ->
  events_of x d = [] ->
  openpyxl (env w) = true ->
  fst (export_log exam_id_ w)
  = Return {| title := "Proctor Log";
              rows := [[Str "#"; Str "Event"; Str "Details";
                        Str "Client Time"; Str "Server Time"; Str "IP";
                        Str "User Agent"]];
              content_disposition :=
                "attachment; filename=exam_" ++ exam_id_ ++ "_log.xlsx" |}.
Proof.
  intros Hdb Hx Hexam Hnone Hxl.
  rewrite (export_log_run _ x _ d Hdb Hx), Hxl.
  destruct (find _ (exam d)); [| contradiction].
  pose proof (sorted_events_of_Permutation x d) as Hperm.
  rewrite Hnone in Hperm. apply Permutation_sym, Permutation_nil in Hperm.
  now rewrite Hperm.
Qed.

Lemma ws_append_texts_client_time l ct cells :
  ws_append (texts l ct) = Return cells ->
  exists kept, check_string ct = Some kept /\ cells !! 2%nat = Some (Str kept).
Proof.
  unfold texts. cbn [ws_append bind_value].
  destruct (check_string (type_ l)); [| discriminate].
  destruct (check_string (details l)); [| discriminate].
  destruct (check_string ct) as [kept |]; [| discriminate].
  destruct (check_string (server_time l)); [| discriminate].
  destruct (bind_value (cell_of (ip l))); [| discriminate].
  destruct (bind_value (cell_of (ua l))); [| discriminate].
  intros [= <-]. now exists kept.
Qed.

(** C10. In the sheet [export_log] produces, the client-time cell of an
    entry whose [client_ts] is absent or is 0 holds the empty string. *)
Theorem export_log_client_time_empty exam_id_ w e w' :
  export_log exam_id_ w = (Return e, w') ->
  exists d x data,
    db w = Some d
    /\ ObjectId_of_str exam_id_ = Some x
    /\ rows e = header :: data
    /\ forall (k : nat) l,
        sorted_events_of x d !! k = Some l ->
        client_ts (fields l) = None \/ client_ts (fields l) = Some 0%Z ->
        exists r, data !! k = Some r /\ r !! 3%nat = Some (Str "").
Proof.
  intros Hrun.
  destruct (export_log_Return _ _ _ _ Hrun) as (d & x & data & Hdb & Hx & Hdata & ->).
  exists d, x, data. repeat split; try assumption.
  intros k l Hk Hts.
  destruct (data_rows_Return _ _ _ Hdata) as [_ Hrows].
  destruct (Hrows k l Hk) as (ct & cells & Hc & Ha & Hr).
  rewrite (client_time_empty _ Hts) in Hc. injection Hc as <-.
  destruct (ws_append_texts_client_time _ _ _ Ha) as (kept & Hkept & Hcell).
  rewrite check_string_empty in Hkept. injection Hkept as <-.
  eexists. split; [exact Hr | exact Hcell].
Qed.

(** *** Failures *)

Definition invalid_id : exn := HTTPException 400 "Invalid ID".
Definition exam_not_found : exn := HTTPException 404 "Exam not found".

(** C4. With a store configured: [get_exam_by_slug] on a slug no exam
    carries, and [verify_exam_password], [log_event] and [export_log]
    on a well-formed id no exam carries, fail with 404 and leave both
    collections as they were; on an id that [ObjectId] rejects, the
    three fail with 400 and the world is untouched, no query made. *)
Theorem missing_exam_fails w d :
  db w = Some d ->
  (forall slug_,
      find (matches_exam (By_slug slug_)) (exam d) = None ->
      fst (get_exam_by_slug slug_ w) = Raise exam_not_found
      /\ db (snd (get_exam_by_slug slug_ w)) = Some d)
  /\ (forall exam_id_ x vbody lbody request,
        ObjectId_of_str exam_id_ = Some x ->
        find (has_id x) (exam d) = None ->
        (fst (verify_exam_password exam_id_ vbody w) = Raise exam_not_found
         /\ db (snd (verify_exam_password exam_id_ vbody w)) = Some d)
        /\ (fst (log_event exam_id_ lbody request w) = Raise exam_not_found
            /\ db (snd (log_event exam_id_ lbody request w)) = Some d)
        /\ (fst (export_log exam_id_ w) = Raise exam_not_found
            /\ db (snd (export_log exam_id_ w)) = Some d))
  /\ (forall exam_id_ vbody lbody request,
        ObjectId_of_str exam_id_ = None ->
        verify_exam_password exam_id_ vbody w = (Raise invalid_id, w)
        /\ log_event exam_id_ lbody request w = (Raise invalid_id, w)
        /\ export_log exam_id_ w = (Raise invalid_id, w)).
Proof.
  intros Hdb. split; [| split].
  - intros slug_ Hnone. run. rewrite Hdb. reduce. rewrite Hdb, Hnone.
    now split.
  - intros exam_id_ x vbody lbody request Hx Hnone.
    run. rewrite Hdb, Hx. reduce. rewrite Hdb. cbn [matches_exam].
    rewrite Hnone. repeat split.
  - intros exam_id_ vbody lbody request Hx.
    run. rewrite Hdb, Hx. repeat split.
Qed.

(** C9. Whenever [log_event] fails, with 400, with 404 or otherwise,
    the store holds what it held before: nothing was written. *)
Theorem log_event_failure_writes_nothing exam_id_ body request w e w' :
  log_event exam_id_ body request w = (Raise e, w') ->
  db w' = db w.
Proof.
  run. destruct (db w) as [d |] eqn:Hdb; [| now intros [= <- <-]].
  repeat (reduce; first [rewrite Hdb | branch]); try discriminate;
    intros [= <- <-]; reduce; congruence.
Qed.

(** ** Beyond the specification's list *)

(** *** No store, no effect *)

Definition store_unavailable : exn :=
  HTTPException 500 "Database not configured".

(** Without a database every handler raises 500 at once: no clock
    reading, no byte of entropy, no identifier and no store call is
    spent. *)
Theorem unconfigured_store_fails w :
  db w = None ->
  forall body request slug_ exam_id_ vbody lbody,
    create_exam body request w = (Raise store_unavailable, w)
    /\ get_exam_by_slug slug_ w = (Raise store_unavailable, w)
    /\ verify_exam_password exam_id_ vbody w = (Raise store_unavailable, w)
    /\ log_event exam_id_ lbody request w = (Raise store_unavailable, w)
    /\ export_log exam_id_ w = (Raise store_unavailable, w).
Proof.
  intros Hdb body request slug_ exam_id_ vbody lbody.
  run. rewrite Hdb. repeat split.
Qed.

(** *** Reads do not write *)

(** [w'] is [w] but for the record of store calls. *)
Definition only_queried (w w' : World) : Prop :=
  env w' = env w
  /\ db w' = db w
  /\ clock_reads w' = clock_reads w
  /\ entropy_read w' = entropy_read w
  /\ ids_made w' = ids_made w.

(** [get_exam_by_slug], [verify_exam_password] and [export_log] leave
    both collections, the clock, the entropy and the identifier counter
    as they found them, whatever they answer. *)
Theorem lookups_only_query w :
  (forall slug_, only_queried w (snd (get_exam_by_slug slug_ w)))
  /\ (forall exam_id_ body,
        only_queried w (snd (verify_exam_password exam_id_ body w)))
  /\ (forall exam_id_, only_queried w (snd (export_log exam_id_ w))).
Proof.
  unfold only_queried.
  destruct (db w) as [d |] eqn:Hdb.
  - repeat split; run; rewrite ?Hdb;
      repeat (reduce; first [rewrite Hdb | branch]); reduce;
      first [reflexivity | exact Hdb | now symmetry].
  - repeat split; run; rewrite ?Hdb; reduce; first [reflexivity | exact Hdb].
Qed.

(** *** Creation *)

(** When [create_exam] fails, for want of a store or because the minted
    [_id] is taken, the store holds what it held before. *)
Theorem create_exam_failure_writes_nothing body request w e w' :
  create_exam body request w = (Raise e, w') ->
  db w' = db w.
Proof.
  run. destruct (db w) as [d |] eqn:Hdb; [| now intros [= <- <-]].
  repeat (reduce; first [rewrite Hdb | branch]); try discriminate;
    intros [= <- <-]; reduce; congruence.
Qed.

(** What [hash_password] returns is 64 lowercase hexadecimal digits,
    whatever the password, the empty one included. *)
Theorem hash_password_shape (pw : string) :
  String.length (hash_password pw) = 64%nat
  /\ forallb Hex.is_lower_hex (list_ascii_of_string (hash_password pw)) = true.
Proof.
  unfold hash_password.
  destruct (sha256_hexdigest_chars (encode pw)) as [Hlen Hhex].
  split; [| assumption].
  rewrite <- (string_of_list_ascii_of_string (SHA256.hexdigest (encode pw))).
  now rewrite string_length_of_list.
Qed.

(** The short URL never has a slash just before [/x/]: what precedes
    [/x/{slug}] is stripped of its trailing slashes, be it the configured
    address or the request's base URL. *)
Theorem short_url_has_single_slash body request w r w1 :
  create_exam body request w = (Return r, w1) ->
  exists base,
    c_short_url r = base ++ "/x/" ++ c_slug r
    /\ ends_with_slash base = false.
Proof.
  intros Hrun.
  destruct (create_exam_Return _ _ _ _ _ Hrun) as (d & _ & _ & -> & _).
  cbn [c_short_url c_slug]. unfold short_url_of.
  destruct (truthy_str _); eexists; (split; [reflexivity |]);
    apply rstrip_slash_no_trailing.
Qed.

Lemma append_empty_l (s : string) : "" ++ s = s.
Proof. reflexivity. Qed.

Lemma rstrip_slash_all_slashes (k : nat) :
  rstrip_slash (string_of_list_ascii (repeat "/"%char k)) = "".
Proof.
  induction k as [| k IH]; [reflexivity |].
  cbn [repeat string_of_list_ascii rstrip_slash]. now rewrite IH.
Qed.

(** A FRONTEND_BASE_URL made of slashes only is truthy and strips to
    nothing: the short URL is then the bare path [/x/{slug}]. *)
Theorem short_url_of_slashes_is_relative body request w r w1 (k : nat) :
  create_exam body request w = (Return r, w1) ->
  FRONTEND_BASE_URL (env w) = Some (string_of_list_ascii (repeat "/"%char (S k))) ->
  c_short_url r = "/x/" ++ c_slug r.
Proof.
  intros Hrun Hbase.
  destruct (create_exam_Return _ _ _ _ _ Hrun) as (d & _ & _ & -> & _).
  cbn [c_short_url c_slug]. unfold short_url_of. rewrite Hbase.
  change (truthy_str (Some (string_of_list_ascii (repeat "/"%char (S k)))))
    with true.
  cbn [default from_option id]. rewrite rstrip_slash_all_slashes.
  apply append_empty_l.
Qed.

(** *** What a request can do to the store *)

(** One request leaves the database as it is, or adds one exam under an
    unused [_id], or adds one event, under an unused [_id], for an exam
    that is there. *)
Inductive db_step (d : Database) : Database -> Prop :=
| step_same : db_step d d
| step_exam (doc : Document Exam) :
    existsb (has_id (_id doc)) (exam d) = false ->
    db_step d {| exam := (exam d ++ [doc])%list; examlog := examlog d |}
| step_event (l : Document Examlog) :
    existsb (has_id (_id l)) (examlog d) = false ->
    existsb (has_id (exam_id (fields l))) (exam d) = true ->
    db_step d {| exam := exam d; examlog := (examlog d ++ [l])%list |}.

Lemma find_Some_existsb {A} (p : A -> bool) (l : list A) (a : A) :
  find p l = Some a -> existsb p l = true.
Proof.
  induction l as [| b l IH]; cbn; [discriminate |].
  destruct (p b); cbn; auto.
Qed.

Lemma serve_step w c d :
  db w = Some d ->
  exists d', db (serve w c) = Some d' /\ db_step d d' /\ env (serve w c) = env w.
Proof.
  intros Hdb.
  destruct c; cbn [serve]; run; rewrite Hdb;
    repeat (reduce; first [rewrite Hdb | branch]); reduce;
    cbn [matches_exam] in *;
    try match goal with
        | Hk : bson_examlog _ = Return _ |- _ =>
            apply bson_examlog_Return in Hk as [-> _]
        end;
    eexists; (split; [first [exact Hdb | reflexivity] |]);
    (split; [| reflexivity]);
    first [ apply step_same
          | apply (step_exam d {| _id := _; fields := _ |}); assumption
          | apply (step_event d {| _id := _; fields := _ |});
            [assumption
            | cbn [fields exam_id bson_examlog_kept];
              eapply find_Some_existsb; eassumption] ].
Qed.

Lemma serve_all_invariant (P : Database -> Prop) :
  (forall d d', db_step d d' -> P d -> P d') ->
  forall calls w d,
    db w = Some d -> P d ->
    exists d', db (serve_all calls w) = Some d' /\ P d'.
Proof.
  intros Hstep calls. induction calls as [| c calls IH]; intros w d Hdb HP.
  - exists d. now split.
  - destruct (serve_step w c d Hdb) as (d1 & Hdb1 & Hs & _).
    cbn [serve_all fold_left]. apply (IH _ d1 Hdb1). eauto.
Qed.

(** No handler removes or rewrites a stored document: after any
    sequence of requests each collection is the former one with
    documents added at its end. *)
Theorem collections_only_grow calls w d :
  db w = Some d ->
  exists d' exams_added events_added,
    db (serve_all calls w) = Some d'
    /\ exam d' = (exam d ++ exams_added)%list
    /\ examlog d' = (examlog d ++ events_added)%list.
Proof.
  intros Hdb.
  destruct (serve_all_invariant
              (fun d' => exists es ls, exam d' = (exam d ++ es)%list
                                       /\ examlog d' = (examlog d ++ ls)%list))
    with (calls := calls) (w := w) (d := d)
    as (d' & Hdb' & es & ls & He & Hl); try assumption.
  - intros d1 d2 Hs (es & ls & He & Hl). destruct Hs; cbn [exam examlog].
    + eauto.
    + exists (es ++ [doc])%list, ls. rewrite He, app_assoc. now split.
    + exists es, (ls ++ [l])%list. rewrite Hl, app_assoc. now split.
  - exists [], []. now rewrite !app_nil_r.
  - exists d', es, ls. auto.
Qed.

(** Every entry of the event log belongs to an exam of the store. *)
Definition events_owned (d : Database) : Prop :=
  forall l, In l (examlog d) ->
            existsb (has_id (exam_id (fields l))) (exam d) = true.

(** The handlers keep the event log attached to the exams: if every
    entry refers to a stored exam, so it is after any sequence of
    requests. *)
Theorem events_stay_owned calls w d :
  db w = Some d ->
  events_owned d ->
  exists d', db (serve_all calls w) = Some d' /\ events_owned d'.
Proof.
  apply serve_all_invariant. clear. intros d d' Hs Hown.
  destruct Hs; unfold events_owned in *; cbn [exam examlog]; [assumption | |].
  - intros l Hl. rewrite existsb_app, (Hown l Hl). reflexivity.
  - intros l0 [Hl | [<- | []]]%in_app_or; auto.
Qed.

(** The [_id]s of each collection are pairwise distinct. *)
Definition ids_unique (d : Database) : Prop :=
  NoDup (map _id (exam d)) /\ NoDup (map _id (examlog d)).

Lemma existsb_has_id_false {A} (x : ObjectId) (l : list (Document A)) :
  existsb (has_id x) l = false -> ~ In x (map _id l).
Proof.
  induction l as [| a l IH]; cbn; [tauto |].
  intros [Ha Hl]%orb_false_elim [E | Hin]; [| now apply IH].
  unfold has_id in Ha. apply bool_decide_eq_false in Ha. contradiction.
Qed.

Lemma NoDup_snoc_id {A} (l : list (Document A)) (doc : Document A) :
  NoDup (map _id l) ->
  existsb (has_id (_id doc)) l = false ->
  NoDup (map _id (l ++ [doc])%list).
Proof.
  intros Hnd Hfresh. rewrite map_app. cbn [map].
  apply NoDup_app. split; [assumption |]. split; [| apply NoDup_singleton].
  intros x Hx ->%list_elem_of_singleton.
  apply (existsb_has_id_false _ _ Hfresh). now apply list_elem_of_In.
Qed.

(** Identifiers stay unique: the store refuses an [_id] it already
    holds, so no sequence of requests makes two documents of a
    collection share one. *)
Theorem ids_stay_unique calls w d :
  db w = Some d ->
  ids_unique d ->
  exists d', db (serve_all calls w) = Some d' /\ ids_unique d'.
Proof.
  apply serve_all_invariant. clear. intros d d' Hs [He Hl].
  destruct Hs; unfold ids_unique; cbn [exam examlog];
    auto using NoDup_snoc_id.
Qed.

(** *** When the writes succeed *)

(** [create_exam] returns exactly when a store is configured and the
    minted [_id] is not taken. *)
Theorem create_exam_succeeds_iff body request w :
  (exists r w', create_exam body request w = (Return r, w'))
  <-> exists d, db w = Some d
                /\ existsb (has_id (next_id w)) (exam d) = false.
Proof.
  split.
  - intros (r & w' & Hrun).
    destruct (create_exam_Return _ _ _ _ _ Hrun) as (d & Hdb & Hfresh & _).
    eauto.
  - intros (d & Hdb & Hfresh). eapply create_exam_succeeds; eassumption.
Qed.

(** A successful [create_exam] adds one document to the exam collection,
    holding the URL, the hash of the password (not the password), the
    slug it returns and the identifier it returns; it leaves the event
    log alone. *)
Theorem create_exam_adds_one_document body request w r w1 :
  create_exam body request w = (Return r, w1) ->
  exists d doc,
    db w = Some d
    /\ db w1 = Some {| exam := (exam d ++ [doc])%list; examlog := examlog d |}
    /\ str_of_ObjectId (_id doc) = c_id r
    /\ url (fields doc) = c_embed_url r
    /\ slug (fields doc) = c_slug r
    /\ password_hash (fields doc) = hash_password (ec_password body).
Proof.
  intros Hrun.
  destruct (create_exam_Return _ _ _ _ _ Hrun) as (d & Hdb & _ & -> & Hdb1 & _).
  exists d. eexists. split; [exact Hdb |]. split; [exact Hdb1 |].
  repeat split.
Qed.

Lemma existsb_false_find {A} (p : A -> bool) (l : list A) :
  existsb p l = false -> find p l = None.
Proof.
  induction l as [| b l IH]; cbn; [reflexivity |].
  destruct (p b); cbn; [discriminate | auto].
Qed.

Lemma str_of_ObjectId_inj (x y : ObjectId) :
  str_of_ObjectId x = str_of_ObjectId y -> x = y.
Proof.
  intros E. pose proof (ObjectId_of_str_of_ObjectId x) as Hx.
  rewrite E, ObjectId_of_str_of_ObjectId in Hx. congruence.
Qed.

(** Two exams created one after the other, with any requests in
    between, never get the same id. *)
Theorem created_exams_have_distinct_ids body1 request1 w r1 w1 calls
    body2 request2 r2 w2 :
  create_exam body1 request1 w = (Return r1, w1) ->
  create_exam body2 request2 (serve_all calls w1) = (Return r2, w2) ->
  c_id r1 <> c_id r2.
Proof.
  intros Hrun1 Hrun2 E.
  destruct (created_exam_found_by_id _ _ _ _ _ calls Hrun1) as (d & Hdb & Hfind).
  destruct (create_exam_Return _ _ _ _ _ Hrun1) as (_ & _ & _ & -> & _).
  destruct (create_exam_Return _ _ _ _ _ Hrun2) as (d' & Hdb' & Hfresh & -> & _).
  rewrite Hdb in Hdb'. injection Hdb' as <-.
  cbn [c_id] in E. apply str_of_ObjectId_inj in E.
  rewrite <- E in Hfresh. apply existsb_false_find in Hfresh. congruence.
Qed.

Definition fitsb (ts : option Z) : bool :=
  match ts with
  | Some n => ((- 2 ^ 63 <=? n) && (n <? 2 ^ 63))%Z
  | None => true
  end.

Lemma fitsb_fits ts : fitsb ts = true <-> fits ts.
Proof.
  unfold fitsb, fits. destruct ts as [n |].
  - rewrite andb_true_iff, Z.leb_le, Z.ltb_lt. split.
    + now intros Hn n' [= <-].
    + intros Hn. now apply Hn.
  - split; [discriminate | reflexivity].
Qed.

Lemma log_event_run exam_id_ body request w d x :
  db w = Some d ->
  ObjectId_of_str exam_id_ = Some x ->
  fst (log_event exam_id_ body request w)
  = match find (has_id x) (exam d) with
    | None => Raise exam_not_found
    | Some _ =>
        if fitsb (lb_ts body)
        then if (document_size body request <=? 16777216)%Z
             then if existsb (has_id (next_id w)) (examlog d)
                  then Raise DuplicateKeyError
                  else Return true
             else Raise DocumentTooLarge
        else Raise OverflowError
    end.
Proof.
  intros Hdb Hx. run. rewrite Hdb, Hx. reduce. rewrite Hdb.
  cbn [matches_exam]. destruct (find _ (exam d)); [| reflexivity].
  reduce. rewrite ?Hdb. reduce.
  unfold next_id, bson_examlog, bson_sized, bson_int, fitsb, max_bson_size.
  rewrite bson_size_log_event. cbn [client_ts].
  destruct (lb_ts body) as [n |];
    [destruct ((- 2 ^ 63 <=? n) && (n <? 2 ^ 63))%Z; [| reflexivity] |];
    (destruct (document_size body request <=? 16777216)%Z; [| reflexivity]);
    now destruct (existsb _ (examlog d)).
Qed.

Lemma storable_run body request :
  storable body request ->
  fitsb (lb_ts body) = true
  /\ (document_size body request <=? 16777216)%Z = true.
Proof. intros [Hfit Hsize]. split; [now apply fitsb_fits | now apply Z.leb_le]. Qed.

(** [log_event] returns exactly when a store is configured, the id reads
    as an ObjectId, an exam carries it, the client timestamp, if any,
    fits in 8 bytes, the document is of at most 16 MiB, and the [_id]
    minted for the entry is not taken. *)
Theorem log_event_succeeds_iff exam_id_ body request w :
  (exists b w', log_event exam_id_ body request w = (Return b, w'))
  <-> exists d x,
      db w = Some d
      /\ ObjectId_of_str exam_id_ = Some x
      /\ find (has_id x) (exam d) <> None
      /\ (forall n, lb_ts body = Some n -> (- 2 ^ 63 <= n < 2 ^ 63)%Z)
      /\ (document_size body request <= 16777216)%Z
      /\ existsb (has_id (next_id w)) (examlog d) = false.
Proof.
  split.
  - intros (b & w' & Hrun).
    destruct (log_event_Return _ _ _ _ _ _ Hrun) as (d & x & Hdb & Hx & Hex & _).
    destruct (log_event_Return_fits _ _ _ _ _ _ Hrun) as [Hfit Hsize].
    exists d, x. do 5 (split; [assumption |]).
    apply (f_equal fst) in Hrun. cbn [fst] in Hrun.
    rewrite (log_event_run _ _ _ _ d x Hdb Hx) in Hrun.
    destruct (find _ (exam d)); [| discriminate].
    destruct (fitsb (lb_ts body)); [| discriminate].
    destruct (document_size body request <=? 16777216)%Z; [| discriminate].
    now destruct (existsb _ (examlog d)).
  - intros (d & x & Hdb & Hx & Hex & Hfit & Hsize & Hfresh).
    exists true, (snd (log_event exam_id_ body request w)).
    rewrite (surjective_pairing (log_event exam_id_ body request w)).
    f_equal. destruct (storable_run body request (conj Hfit Hsize)) as [Hf Hs].
    rewrite (log_event_run _ _ _ _ d x Hdb Hx), Hfresh, Hf, Hs.
    now destruct (find _ (exam d)).
Qed.

(** A successful [log_event] answers [True], leaves the exams alone and
    adds one entry at the end of the log: the exam's id, the body's type,
    its details (empty when absent), its timestamp as sent, the clock's
    reading rounded down to the millisecond, the peer's host if there is
    a peer, and the user-agent header. *)
Theorem log_event_appends_one_entry exam_id_ body request w b w' :
  log_event exam_id_ body request w = (Return b, w') ->
  b = true
  /\ exists d x entry,
      db w = Some d
      /\ ObjectId_of_str exam_id_ = Some x
      /\ db w' = Some {| exam := exam d;
                         examlog := (examlog d ++ [entry])%list |}
      /\ exam_id (fields entry) = x
      /\ type_ (fields entry) = lb_type body
      /\ client_ts (fields entry) = lb_ts body
      /\ server_ts (fields entry)
         = (utcnow (env w) (clock_reads w) / 1000 * 1000)%Z
      /\ ua (fields entry) = user_agent request
      /\ (lb_details body = None \/ lb_details body = Some "" ->
          details (fields entry) = "")
      /\ (forall s, lb_details body = Some s -> details (fields entry) = s)
      /\ (client request = None -> ip (fields entry) = None)
      /\ (forall host port,
            client request = Some (host, port) ->
            ip (fields entry) = Some host).
Proof.
  intros Hrun.
  destruct (log_event_Return _ _ _ _ _ _ Hrun) as (d & x & Hdb & Hx & Hex & Hdb').
  split.
  - apply (f_equal fst) in Hrun. cbn [fst] in Hrun.
    rewrite (log_event_run _ _ _ _ d x Hdb Hx) in Hrun.
    destruct (find _ (exam d)); [| discriminate].
    destruct (fitsb (lb_ts body)); [| discriminate].
    destruct (document_size body request <=? 16777216)%Z; [| discriminate].
    destruct (existsb _ (examlog d)); congruence.
  - exists d, x, {| _id := next_id w; fields := event_of x body request w |}.
    split; [exact Hdb |]. split; [exact Hx |]. split; [exact Hdb' |].
    unfold event_of, bson_datetime. cbn.
    repeat split.
    + now intros [-> | ->].
    + intros s ->. now destruct s.
    + now intros ->.
    + now intros host port ->.
Qed.

(** *** Lookups by slug *)

Lemma find_first {A} (p : A -> bool) (l : list A) (a : A) :
  find p l = Some a ->
  exists older newer,
    l = (older ++ a :: newer)%list
    /\ p a = true
    /\ forallb (fun b => negb (p b)) older = true.
Proof.
  induction l as [| b l IH]; cbn; [discriminate |].
  destruct (p b) eqn:Hb.
  - intros [= <-]. now exists [], l.
  - intros Hfind. destruct (IH Hfind) as (older & newer & -> & Ha & Hall).
    exists (b :: older), newer. cbn. now rewrite Hb.
Qed.

(** [get_exam_by_slug] answers 404 exactly when no stored exam carries
    the slug; otherwise it answers with the id and URL of the oldest exam
    that does, and echoes the slug. *)
Theorem get_exam_by_slug_answers_oldest slug_ w d :
  db w = Some d ->
  (fst (get_exam_by_slug slug_ w) = Raise exam_not_found
   <-> forall doc, In doc (exam d) -> slug (fields doc) <> slug_)
  /\ (forall found,
        fst (get_exam_by_slug slug_ w) = Return found ->
        exists older doc newer,
          exam d = (older ++ doc :: newer)%list
          /\ slug (fields doc) = slug_
          /\ (forall e, In e older -> slug (fields e) <> slug_)
          /\ found = {| g_id := str_of_ObjectId (_id doc);
                        g_slug := slug_;
                        g_embed_url := url (fields doc) |}).
Proof.
  intros Hdb. rewrite (get_exam_by_slug_run _ _ d Hdb).
  destruct (find _ (exam d)) as [doc |] eqn:Hfind.
  - destruct (find_first _ _ _ Hfind) as (older & newer & E & Hdoc & Hall).
    cbn [matches_exam] in Hdoc. apply bool_decide_eq_true in Hdoc.
    split.
    + split; [discriminate |]. intros Hnone. exfalso.
      apply (Hnone doc); [| assumption].
      rewrite E. apply in_or_app. right. now left.
    + intros found [= <-]. exists older, doc, newer.
      repeat split; try assumption.
      intros e He. rewrite forallb_forall in Hall. specialize (Hall e He).
      cbn [matches_exam] in Hall. apply negb_true_iff in Hall.
      now apply bool_decide_eq_false in Hall.
  - split; [| discriminate]. split; [| reflexivity].
    intros _ doc Hin.
    pose proof (find_none _ _ Hfind doc Hin) as Hno.
    cbn [matches_exam] in Hno. now apply bool_decide_eq_false in Hno.
Qed.

(** *** Exports *)

Lemma export_log_invalid exam_id_ w d :
  db w = Some d ->
  ObjectId_of_str exam_id_ = None ->
  fst (export_log exam_id_ w) = Raise invalid_id.
Proof. intros Hdb Hx. run. now rewrite Hdb, Hx. Qed.

Lemma log_event_world exam_id_ body request w d :
  db w = Some d ->
  env (snd (log_event exam_id_ body request w)) = env w
  /\ (db (snd (log_event exam_id_ body request w)) = Some d
      \/ exists x entry,
          ObjectId_of_str exam_id_ = Some x
          /\ exam_id (fields entry) = x
          /\ db (snd (log_event exam_id_ body request w))
             = Some {| exam := exam d;
                       examlog := (examlog d ++ [entry])%list |}).
Proof.
  intros Hdb. run. rewrite Hdb.
  repeat (reduce; first [rewrite Hdb | branch]); reduce;
    try match goal with
        | Hk : bson_examlog _ = Return _ |- _ =>
            apply bson_examlog_Return in Hk as [-> _]
        end;
    (split; [reflexivity |]);
    first [ left; first [exact Hdb | reflexivity]
          | right; eexists _, _;
            split; [reflexivity |]; (split; [| reflexivity]); reflexivity ].
Qed.

(** Logging an event for one exam does not change what the export of
    another exam answers. *)
Theorem log_event_keeps_other_exports logged exported body request w :
  ObjectId_of_str logged <> ObjectId_of_str exported ->
  fst (export_log exported (snd (log_event logged body request w)))
  = fst (export_log exported w).
Proof.
  intros Hne.
  destruct (db w) as [d |] eqn:Hdb.
  2: { assert (Hsame : snd (log_event logged body request w) = w)
         by (run; now rewrite Hdb).
       now rewrite Hsame. }
  destruct (log_event_world logged body request w d Hdb) as [Henv Hdb'].
  destruct Hdb' as [Hdb' | (x & entry & Hx & Hentry & Hdb')].
  - destruct (ObjectId_of_str exported) as [y |] eqn:Hy.
    + now rewrite (export_log_run _ y _ d Hdb' Hy),
        (export_log_run _ y _ d Hdb Hy), Henv.
    + now rewrite (export_log_invalid _ _ d Hdb' Hy),
        (export_log_invalid _ _ d Hdb Hy).
  - destruct (ObjectId_of_str exported) as [y |] eqn:Hy.
    + rewrite (export_log_run _ y _ _ Hdb' Hy),
        (export_log_run _ y _ d Hdb Hy), Henv.
      cbn [exam]. unfold sorted_events_of, events_of. cbn [examlog].
      rewrite List.filter_app. cbn [List.filter].
      rewrite bool_decide_eq_false_2 by congruence.
      now rewrite app_nil_r.
    + now rewrite (export_log_invalid _ _ _ Hdb' Hy),
        (export_log_invalid _ _ d Hdb Hy).
Qed.

(** One entry is enough to block an export: for an exam that exists,
    with openpyxl importable, [export_log] returns a sheet exactly when
    every entry of the exam has a client timestamp it can show and texts
    the worksheet takes; otherwise it raises [ValueError] (from
    [datetime.fromtimestamp]) or [IllegalCharacterError] (from
    [ws.append]). *)
Theorem export_log_returns_iff_exportable exam_id_ x w d :
  db w = Some d ->
  ObjectId_of_str exam_id_ = Some x ->
  find (has_id x) (exam d) <> None ->
  openpyxl (env w) = true ->
  ((exists e, fst (export_log exam_id_ w) = Return e)
   <-> forall l, In l (events_of x d) ->
                 showable (client_ts (fields l)) /\ appendable (fields l))
  /\ (forall e, fst (export_log exam_id_ w) = Raise e ->
                e = ValueError \/ e = IllegalCharacterError).
Proof.
  intros Hdb Hx Hexam Hxl.
  rewrite (export_log_run _ x _ d Hdb Hx), Hxl.
  destruct (find _ (exam d)); [| contradiction].
  pose proof (sorted_events_of_Permutation x d) as Hperm.
  destruct (data_rows 1 (sorted_events_of x d)) as [data | e0] eqn:Hdata.
  - split; [| discriminate]. split; [| eauto].
    intros _ l Hl. apply exportable_iff.
    apply (data_rows_Return_all _ _ _ Hdata).
    eapply Permutation_in; [apply Permutation_sym |]; eassumption.
  - split.
    + split; [intros [e He]; discriminate |]. intros Hall. exfalso.
      destruct (data_rows_total (sorted_events_of x d) 1) as [data Hdata'].
      { intros l Hl. apply exportable_iff, Hall.
        eapply Permutation_in; eassumption. }
      congruence.
    + intros e [= <-]. eapply data_rows_Raise; eassumption.
Qed.

(** A list sorted by key that is a permutation of a list strictly
    increasing by key is that list. *)
Lemma sorted_permutation_of_increasing {A} (key : A -> Z) (l : list A) :
  StronglySorted (fun a b => (key a < key b)%Z) l ->
  forall l', Permutation l' l ->
             Sorted (fun a b => (key a <= key b)%Z) l' ->
             l' = l.
Proof.
  induction 1 as [| a l Hl IH Ha]; intros l' Hperm Hsorted.
  - now apply Permutation_nil, Permutation_sym.
  - destruct l' as [| b l'].
    { apply Permutation_nil in Hperm. discriminate. }
    assert (Hb : b = a).
    { assert (Hin : In b (a :: l))
        by (eapply Permutation_in; [exact Hperm | now left]).
      destruct Hin as [-> | Hin]; [reflexivity |]. exfalso.
      rewrite Forall_forall in Ha.
      pose proof (Ha b (proj2 (list_elem_of_In _ _) Hin)) as Hlt.
      apply Sorted_StronglySorted in Hsorted; [| intros ? ? ?; lia].
      apply StronglySorted_inv in Hsorted as [_ Hall].
      rewrite Forall_forall in Hall.
      assert (Hina : In a (b :: l'))
        by (eapply Permutation_in;
            [apply Permutation_sym; exact Hperm | now left]).
      destruct Hina as [-> | Hina]; [lia |].
      specialize (Hall a (proj2 (list_elem_of_In _ _) Hina)). lia. }
    subst b. f_equal. apply IH.
    + eapply Permutation_cons_inv; eassumption.
    + now apply Sorted_inv in Hsorted.
Qed.

(** When the entries of an exam carry strictly increasing [server_ts] in
    the order they were logged, the export lists them in that order,
    however the store breaks ties. *)
Theorem export_log_in_logging_order exam_id_ x w d e w' :
  db w = Some d ->
  ObjectId_of_str exam_id_ = Some x ->
  StronglySorted
    (fun a b => (server_ts (fields a) < server_ts (fields b))%Z)
    (events_of x d) ->
  export_log exam_id_ w = (Return e, w') ->
  exists data,
    rows e = header :: data
    /\ data_rows 1 (events_of x d) = Return data.
Proof.
  intros Hdb Hx Hinc Hrun.
  destruct (export_log_Return _ _ _ _ Hrun) as (d0 & x0 & data & Hdb0 & Hx0 & Hdata & ->).
  rewrite Hdb in Hdb0. injection Hdb0 as <-.
  rewrite Hx in Hx0. injection Hx0 as <-.
  exists data. split; [reflexivity |].
  rewrite <- Hdata. f_equal. symmetry.
  apply (sorted_permutation_of_increasing (fun l => server_ts (fields l)));
    [assumption | apply sorted_events_of_Permutation |].
  apply (cursor_sort_Sorted _ (fun l => server_ts (fields l))).
Qed.

(** *** From creation to export *)

(** An exam that [create_exam] returned accepts events from then on:
    [log_event] on its id answers [True] whenever the client timestamp,
    if any, fits in 8 bytes, the document is of at most 16 MiB, and the
    [_id] minted for the entry is free. *)
Theorem created_exam_accepts_events body request w r w1 calls lbody lrequest d2 :
  create_exam body request w = (Return r, w1) ->
  db (serve_all calls w1) = Some d2 ->
  (forall n, lb_ts lbody = Some n -> (- 2 ^ 63 <= n < 2 ^ 63)%Z) ->
  (document_size lbody lrequest <= 16777216)%Z ->
  existsb (has_id (next_id (serve_all calls w1))) (examlog d2) = false ->
  fst (log_event (c_id r) lbody lrequest (serve_all calls w1)) = Return true.
Proof.
  intros Hrun Hdb2 Hfit Hsize Hfresh.
  destruct (created_exam_found_by_id _ _ _ _ _ calls Hrun) as (d & Hdb & Hfind).
  rewrite Hdb2 in Hdb. injection Hdb as <-.
  destruct (create_exam_Return _ _ _ _ _ Hrun) as (_ & _ & _ & -> & _).
  cbn [c_id].
  destruct (storable_run lbody lrequest (conj Hfit Hsize)) as [Hf Hs].
  now rewrite (log_event_run _ _ _ _ d2 (next_id w) Hdb2
                 (ObjectId_of_str_of_ObjectId _)), Hfind, Hf, Hs, Hfresh.
Qed.

(** The entry [log_event] stored is in every later export of the exam
    that succeeds: some data row holds the number of its position
    followed by what the worksheet keeps of the stored type, details,
    client time, server time, origin address and user agent. *)
Theorem logged_event_is_exported exam_id_ body request w b w1 calls e w2 :
  log_event exam_id_ body request w = (Return b, w1) ->
  export_log exam_id_ (serve_all calls w1) = (Return e, w2) ->
  exists d1 entry (k : nat) ct cells,
    db w1 = Some d1
    /\ last (examlog d1) = Some entry
    /\ client_time (fields entry) = Return ct
    /\ ws_append
         [Str (type_ (fields entry));
          Str (details (fields entry));
          Str ct;
          Str (astimezone_utc_isoformat (server_ts (fields entry)));
          cell_of (ip (fields entry));
          cell_of (ua (fields entry))]
       = Return cells
    /\ rows e !! S k = Some (Int (Z.of_nat (S k)) :: cells).
Proof.
  intros Hlog Hexp.
  destruct (log_event_Return _ _ _ _ _ _ Hlog) as (d & x & Hdb & Hx & _ & Hdb1).
  set (entry := {| _id := next_id w; fields := event_of x body request w |}) in *.
  destruct (serve_all_invariant (fun d' => In entry (examlog d')))
    with (calls := calls) (w := w1)
         (d := {| exam := exam d; examlog := (examlog d ++ [entry])%list |})
    as (d2 & Hdb2 & Hin); try assumption.
  { intros d3 d4 Hs Hin. destruct Hs; cbn [examlog]; auto.
    apply in_or_app. now left. }
  { cbn [examlog]. apply in_or_app. right. now left. }
  destruct (export_log_Return _ _ _ _ Hexp)
    as (d2' & x' & data & Hdb2' & Hx' & Hdata & ->).
  rewrite Hdb2 in Hdb2'. injection Hdb2' as <-.
  rewrite Hx in Hx'. injection Hx' as <-.
  assert (Hsorted : In entry (sorted_events_of x d2)).
  { eapply Permutation_in;
      [apply Permutation_sym, sorted_events_of_Permutation |].
    unfold events_of. apply filter_In. split; [assumption |].
    now apply bool_decide_eq_true. }
  apply list_elem_of_In, list_elem_of_lookup in Hsorted as [k Hk].
  destruct (data_rows_Return _ _ _ Hdata) as [_ Hrows].
  destruct (Hrows k entry Hk) as (ct & cells & Hct & Hcells & Hrow).
  eexists _, entry, k, ct, cells. split; [exact Hdb1 |].
  split; [cbn [examlog]; apply last_snoc |].
  split; [exact Hct |]. split; [exact Hcells |].
  cbn [rows attachment]. rewrite lookup_cons. etrans; [exact Hrow |].
  do 3 f_equal. lia.
Qed.

Lemma filter_none {A} (p : A -> bool) (l : list A) :
  (forall a, In a l -> p a = false) -> List.filter p l = [].
Proof.
  induction l as [| a l IH]; intros Hall; cbn; [reflexivity |].
  rewrite (Hall a (or_introl eq_refl)). apply IH. intros b Hb.
  apply Hall. now right.
Qed.

(** In a store whose events all belong to stored exams, a newly created
    exam has no event: with openpyxl importable its export is the header
    row alone. *)
Theorem fresh_exam_exports_header_only body request w d r w1 :
  db w = Some d ->
  events_owned d ->
  openpyxl (env w) = true ->
  create_exam body request w = (Return r, w1) ->
  fst (export_log (c_id r) w1) = Return (attachment (c_id r) []).
Proof.
  intros Hdb Hown Hxl Hrun.
  destruct (created_exam_found_by_id _ _ _ _ _ [] Hrun) as (d1 & Hdb1 & Hfind).
  cbn [serve_all fold_left] in Hdb1.
  destruct (create_exam_Return _ _ _ _ _ Hrun)
    as (d' & Hdb' & Hfresh & -> & Hdb1' & Henv).
  rewrite Hdb in Hdb'. injection Hdb' as <-.
  cbn [c_id].
  rewrite (export_log_run _ (next_id w) _ d1 Hdb1
             (ObjectId_of_str_of_ObjectId _)), Hfind, Henv, Hxl.
  assert (Hnone : events_of (next_id w) d1 = []).
  { rewrite Hdb1 in Hdb1'. injection Hdb1' as ->.
    unfold events_of. cbn [examlog]. apply filter_none.
    intros l Hl. apply bool_decide_eq_false. intros E.
    specialize (Hown l Hl). rewrite E in Hown. congruence. }
  pose proof (sorted_events_of_Permutation (next_id w) d1) as Hperm.
  rewrite Hnone in Hperm. apply Permutation_sym, Permutation_nil in Hperm.
  now rewrite Hperm.
Qed.

(** Strictly increasing keys, as a test. *)
Fixpoint increasingb (ks : list Z) : bool :=
  match ks with
  | a :: (b :: _) as rest => (a <? b)%Z && increasingb rest
  | _ => true
  end.

Lemma increasingb_StronglySorted {A} (key : A -> Z) (l : list A) :
  increasingb (map key l) = true ->
  StronglySorted (fun a b => (key a < key b)%Z) l.
Proof.
  intros Hinc. apply Sorted_StronglySorted; [intros a b c; lia |].
  induction l as [| a l IH]; [constructor |].
  destruct l as [| b l]; [repeat constructor |].
  cbn [map increasingb] in Hinc. apply andb_prop in Hinc as [Hab Hrest].
  constructor; [now apply IH |]. constructor. lia.
Qed.

End Facts.

(** ** A deployment to run the handlers on *)

Module Scenario.
Import Reference ReferenceFacts.

(** Two seeds whose SHA-1 digests start with the same eight digits. *)
Definition seed_a : list Byte.byte :=
  [Byte.x00; Byte.x00; Byte.x00; Byte.x00; Byte.x00; Byte.x00; Byte.x00;
   Byte.x00; Byte.x00; Byte.x00; Byte.x00; Byte.x00; Byte.x00; Byte.x00;
   Byte.x0b; Byte.x37].
Definition seed_b : list Byte.byte :=
  [Byte.x00; Byte.x00; Byte.x00; Byte.x00; Byte.x00; Byte.x00; Byte.x00;
   Byte.x00; Byte.x00; Byte.x00; Byte.x00; Byte.x00; Byte.x00; Byte.x01;
   Byte.xe0; Byte.x33].

Definition env0 : Env :=
  {| FRONTEND_BASE_URL := Some "https://proctor.example.com/";
     openpyxl := true;
     utcnow := fun n => (1700000000000000 + Z.of_nat n * 1000000)%Z;
     entropy := fun n => nth n (seed_a ++ seed_b)%list Byte.x00;
     new_ObjectId :=
       fun n => of_Z 24 (0x65a1f0c2b3d4e5f601020304 + Z.of_nat n)%Z |}.

Definition empty_db : Database := {| exam := []; examlog := [] |}.

Definition boot (e : Env) (d : option Database) : World :=
  {| env := e; db := d; clock_reads := 0; entropy_read := 0;
     ids_made := 0; queries := [] |}.

Definition world0 : World := boot env0 (Some empty_db).

Definition body1 : ExamCreate :=
  {| ec_url := "https://forms.example.com/f1"; ec_password := "secret123" |}.
Definition body2 : ExamCreate :=
  {| ec_url := "https://forms.example.com/f2"; ec_password := "hunter2" |}.

Definition request0 : Request :=
  {| base_url := "http://testserver/";
     client := Some ("203.0.113.7", 51234%Z);
     user_agent := Some "Mozilla/5.0" |}.

Definition id1 : string := "65a1f0c2b3d4e5f601020304".
Definition id2 : string := "65a1f0c2b3d4e5f601020305".

Definition created1 : ExamCreated :=
  {| c_id := id1;
     c_slug := "9352c836";
     c_short_url := "https://proctor.example.com/x/9352c836";
     c_embed_url := "https://forms.example.com/f1" |}.
Definition created2 : ExamCreated :=
  {| c_id := id2;
     c_slug := "9352c836";
     c_short_url := "https://proctor.example.com/x/9352c836";
     c_embed_url := "https://forms.example.com/f2" |}.

(** The world after the first exam has been created, and after the
    second. *)
Definition world1 : World := serve world0 (Create_exam body1 request0).
Definition world2 : World := serve world1 (Create_exam body2 request0).

Definition blur : LogBody :=
  {| lb_type := "blur"; lb_details := None; lb_ts := Some 1700000000123%Z |}.
Definition fullscreen_exit : LogBody :=
  {| lb_type := "fullscreen-exit";
     lb_details := Some "left fullscreen";
     lb_ts := Some 0%Z |}.
Definition far_future : LogBody :=
  {| lb_type := "blur"; lb_details := None;
     lb_ts := Some 100000000000000000%Z |}.

Definition proctoring : list Call :=
  [Log_event id1 blur request0;
   Log_event id2 blur request0;
   Log_event id1 fullscreen_exit request0].

(** Two events logged for the first exam, one for the second. *)
Definition world3 : World := serve_all proctoring world2.

Definition exams (w : World) : list (Document Exam) :=
  match db w with Some d => exam d | None => [] end.
Definition events (w : World) : list (Document Examlog) :=
  match db w with Some d => examlog d | None => [] end.

(** The same deployment on a server without openpyxl. *)
Definition env_bare : Env :=
  {| FRONTEND_BASE_URL := None;
     openpyxl := false;
     utcnow := utcnow env0;
     entropy := entropy env0;
     new_ObjectId := new_ObjectId env0 |}.
Definition bare1 : World :=
  serve (boot env_bare (Some empty_db)) (Create_exam body1 request0).
Definition bare2 : World := serve bare1 (Log_event id1 blur request0).

End Scenario.


Section Runs.
Import Reference ReferenceFacts Scenario.

Example scenario_create_exam :
  fst (create_exam body1 request0 world0) = Return created1.
Proof. vm_compute. reflexivity. Qed.

Example scenario_verify :
  fst (verify_exam_password id1 {| vb_password := "secret123" |} world3)
  = Return {| ok := true; message := "OK" |}
  /\ fst (verify_exam_password id1 {| vb_password := "wrong" |} world3)
     = Return {| ok := false; message := "Invalid password" |}.
Proof. split; vm_compute; reflexivity. Qed.

Example scenario_export :
  fst (export_log id1 world3)
  = Return
      {| title := "Proctor Log";
         rows :=
           [header;
            [Int 1; Str "blur"; Str ""; Str "2023-11-14T22:13:20.123000";
             Str "2023-11-14T22:13:24+00:00"; Str "203.0.113.7";
             Str "Mozilla/5.0"];
            [Int 2; Str "fullscreen-exit"; Str "left fullscreen"; Str "";
             Str "2023-11-14T22:13:26+00:00"; Str "203.0.113.7";
             Str "Mozilla/5.0"]];
         content_disposition :=
           "attachment; filename=exam_65a1f0c2b3d4e5f601020304_log.xlsx" |}.
Proof. vm_compute. reflexivity. Qed.

(** An event whose client timestamp lies beyond year 9999 is accepted
    by [log_event]; from then on the export of that exam raises. *)
Example scenario_export_far_future :
  fst (log_event id1 far_future request0 world3) = Return true
  /\ fst (export_log id1 (serve world3 (Log_event id1 far_future request0)))
     = Raise ValueError.
Proof. split; vm_compute; reflexivity. Qed.

(** Two readings of the clock within one millisecond are stored as the
    same instant. *)
Definition env_fine : Env :=
  {| FRONTEND_BASE_URL := FRONTEND_BASE_URL env0;
     openpyxl := true;
     utcnow := fun n => (1700000000123456 + Z.of_nat n)%Z;
     entropy := entropy env0;
     new_ObjectId := new_ObjectId env0 |}.

Example scenario_same_millisecond :
  map (fun doc => (created_at (fields doc), updated_at (fields doc)))
    (exams (serve (boot env_fine (Some empty_db)) (Create_exam body1 request0)))
  = [(1700000000123000%Z, 1700000000123000%Z)].
Proof. vm_compute. reflexivity. Qed.

(** A client timestamp beyond 8 bytes is refused by the store: the
    request fails and nothing is written. *)
Definition too_large : LogBody :=
  {| lb_type := "blur"; lb_details := None;
     lb_ts := Some 100000000000000000000%Z |}.

Example scenario_log_too_large :
  fst (log_event id1 too_large request0 world3) = Raise OverflowError
  /\ List.length (events (snd (log_event id1 too_large request0 world3)))
     = List.length (events world3).
Proof. split; vm_compute; reflexivity. Qed.

(** An event whose type holds a bell character is accepted by
    [log_event]; the worksheet refuses it, and it does so before the
    export reaches a later entry whose client timestamp cannot be
    shown. *)
Definition bell : LogBody :=
  {| lb_type := String (ascii_of_nat 7) "blur";
     lb_details := None;
     lb_ts := None |}.

Example scenario_export_control_character :
  fst (log_event id1 bell request0 world3) = Return true
  /\ fst (export_log id1 (serve world3 (Log_event id1 bell request0)))
     = Raise IllegalCharacterError
  /\ fst (export_log id1
            (serve_all [Log_event id1 bell request0;
                        Log_event id1 far_future request0] world3))
     = Raise IllegalCharacterError
  /\ fst (export_log id1
            (serve_all [Log_event id1 far_future request0;
                        Log_event id1 bell request0] world3))
     = Raise ValueError.
Proof. repeat split; vm_compute; reflexivity. Qed.

End Runs.

(** ** The properties at work on the scenario *)

Section Instances.
Import Reference ReferenceFacts Scenario.

Lemma runs_to {A} (m : M A) (w w' : World) (o : outcome A) :
  fst (m w) = o -> snd (m w) = w' -> m w = (o, w').
Proof. destruct (m w). cbn. now intros -> ->. Qed.

Ltac evaluate := apply runs_to; [vm_compute; reflexivity | reflexivity].

Lemma verify_password_iff_hash_equal_witness :
  create_exam body1 request0 world0 = (Return created1, world1)
  /\ exists v,
      fst (verify_exam_password (c_id created1) {| vb_password := "secret123" |}
             (serve_all (Create_exam body2 request0 :: proctoring) world1))
      = Return v
      /\ (ok v = true
          <-> hash_password "secret123" = hash_password (ec_password body1))
      /\ (ok v = true -> message v = "OK")
      /\ (ok v = false -> message v = "Invalid password")
      /\ ("secret123" = ec_password body1 -> ok v = true).
Proof.
  split; [evaluate |].
  apply (verify_password_iff_hash_equal body1 request0 world0 created1 world1).
  evaluate.
Defined.

(** C3 fails: with a clock that moves between the two readings, the
    inserted document has [created_at] one second before
    [updated_at]. *)
Lemma create_exam_timestamps_differ :
  create_exam body1 request0 world0 = (Return created1, world1)
  /\ map (fun doc => (created_at (fields doc), updated_at (fields doc)))
       (exams world1)
     = [(1700000000000000%Z, 1700000001000000%Z)].
Proof. split; [evaluate | vm_compute; reflexivity]. Qed.

Lemma create_exam_timestamps_witness :
  create_exam body1 request0 world0 = (Return created1, world1)
  /\ exists d1 doc,
      db world1 = Some d1
      /\ last (exam d1) = Some doc
      /\ str_of_ObjectId (_id doc) = c_id created1
      /\ created_at (fields doc)
         = (utcnow (env world0) (clock_reads world0) / 1000 * 1000)%Z
      /\ updated_at (fields doc)
         = (utcnow (env world0) (S (clock_reads world0)) / 1000 * 1000)%Z
      /\ (created_at (fields doc) = updated_at (fields doc)
          <-> (utcnow (env world0) (clock_reads world0) / 1000
               = utcnow (env world0) (S (clock_reads world0)) / 1000)%Z).
Proof.
  split; [evaluate |].
  apply (create_exam_timestamps body1 request0 world0 created1 world1).
  evaluate.
Defined.

Lemma create_exam_slug_witness :
  create_exam body1 request0 world0 = (Return created1, world1)
  /\ String.length (c_slug created1) = 8%nat
  /\ forallb Hex.is_lower_hex (list_ascii_of_string (c_slug created1)) = true
  /\ List.length (next_seed world0) = 16%nat
  /\ c_slug created1 = substring 0 8 (SHA1.hexdigest (next_seed world0)).
Proof.
  split; [evaluate |].
  apply (create_exam_slug body1 request0 world0 created1 world1).
  evaluate.
Defined.

(** C6 fails: the second exam draws the slug of the first, and the
    lookup by that slug answers with the first exam's id and URL. *)
Lemma slug_collision_returns_older_exam :
  create_exam body1 request0 world0 = (Return created1, world1)
  /\ create_exam body2 request0 world1 = (Return created2, world2)
  /\ fst (get_exam_by_slug (c_slug created2) world2)
     = Return {| g_id := c_id created1;
                 g_slug := c_slug created2;
                 g_embed_url := c_embed_url created1 |}
  /\ c_id created1 <> c_id created2
  /\ c_embed_url created1 <> c_embed_url created2.
Proof.
  split; [evaluate |]. split; [evaluate |].
  split; [vm_compute; reflexivity |].
  split; vm_compute; discriminate.
Qed.

Lemma get_exam_by_slug_after_create_witness :
  create_exam body1 request0 world0 = (Return created1, world1)
  /\ db world0 = Some empty_db
  /\ existsb (matches_exam (By_slug (c_slug created1))) (exam empty_db) = false
  /\ c_embed_url created1 = ec_url body1
  /\ fst (get_exam_by_slug (c_slug created1)
            (serve_all (Create_exam body2 request0 :: proctoring) world1))
     = Return {| g_id := c_id created1;
                 g_slug := c_slug created1;
                 g_embed_url := c_embed_url created1 |}.
Proof.
  split; [evaluate |].
  split; [reflexivity |]. split; [reflexivity |].
  apply (get_exam_by_slug_after_create body1 request0 world0 created1 world1
           (Create_exam body2 request0 :: proctoring) empty_db).
  - evaluate.
  - reflexivity.
  - reflexivity.
Defined.


Definition oid1 : ObjectId := of_Z 24 0x65a1f0c2b3d4e5f601020304.

(** C2 fails: on a server where openpyxl cannot be imported, the exam
    has one logged event and [export_log] produces no table. *)
Lemma export_log_without_encoder :
  map (fun doc => str_of_ObjectId (_id doc)) (exams bare2) = [id1]
  /\ List.length (events_of oid1 (stored bare2)) = 1%nat
  /\ fst (export_log id1 bare2)
     = Raise (HTTPException 500 "openpyxl not installed on server").
Proof. repeat split; vm_compute; reflexivity. Qed.

Lemma export_log_table_witness :
  db world3 = Some (stored world3)
  /\ ObjectId_of_str id1 = Some oid1
  /\ find (has_id oid1) (exam (stored world3)) <> None
  /\ openpyxl (env world3) = true
  /\ (forall l, In l (events_of oid1 (stored world3)) ->
                showable (client_ts (fields l)) /\ appendable (fields l))
  /\ exists logs data e,
      fst (export_log id1 world3) = Return e
      /\ rows e = header :: data
      /\ List.length data = List.length (events_of oid1 (stored world3))
      /\ Permutation logs (events_of oid1 (stored world3))
      /\ StronglySorted
           (fun a b => (server_ts (fields a) <= server_ts (fields b))%Z) logs
      /\ forall (k : nat) l,
          logs !! k = Some l ->
          exists ct cells,
            client_time (fields l) = Return ct
            /\ ws_append
                 [Str (type_ (fields l));
                  Str (details (fields l));
                  Str ct;
                  Str (astimezone_utc_isoformat (server_ts (fields l)));
                  cell_of (ip (fields l));
                  cell_of (ua (fields l))]
               = Return cells
            /\ data !! k = Some (Int (Z.of_nat (S k)) :: cells).
Proof.
  assert (Hdb : db world3 = Some (stored world3))
    by (apply configured_db; vm_compute; reflexivity).
  assert (Hx : ObjectId_of_str id1 = Some oid1) by (vm_compute; reflexivity).
  assert (Hexam : find (has_id oid1) (exam (stored world3)) <> None)
    by (apply existsb_find; vm_compute; reflexivity).
  assert (Hxl : openpyxl (env world3) = true) by (vm_compute; reflexivity).
  assert (Hshow : forall l, In l (events_of oid1 (stored world3)) ->
                            showable (client_ts (fields l))
                            /\ appendable (fields l)).
  { intros l Hl. apply exportable_iff. revert l Hl.
    apply forallb_exportable. vm_compute. reflexivity. }
  repeat (split; [assumption |]).
  exact (export_log_table id1 oid1 world3 (stored world3)
           Hdb Hx Hexam Hxl Hshow).
Defined.

(** C7 fails: the exam exists and has no event, yet without openpyxl
    [export_log] fails with 500. *)
Lemma export_log_no_events_without_encoder :
  map (fun doc => str_of_ObjectId (_id doc)) (exams bare1) = [id1]
  /\ List.length (events bare1) = 0%nat
  /\ fst (export_log id1 bare1)
     = Raise (HTTPException 500 "openpyxl not installed on server").
Proof. repeat split; vm_compute; reflexivity. Qed.

Lemma export_log_no_events_witness :
  db world1 = Some (stored world1)
  /\ ObjectId_of_str id1 = Some oid1
  /\ find (has_id oid1) (exam (stored world1)) <> None
  /\ events_of oid1 (stored world1) = []
  /\ openpyxl (env world1) = true
  /\ fst (export_log id1 world1)
     = Return {| title := "Proctor Log";
                 rows := [[Str "#"; Str "Event"; Str "Details";
                           Str "Client Time"; Str "Server Time"; Str "IP";
                           Str "User Agent"]];
                 content_disposition :=
                   "attachment; filename=exam_" ++ id1 ++ "_log.xlsx" |}.
Proof.
  assert (Hdb : db world1 = Some (stored world1))
    by (apply configured_db; vm_compute; reflexivity).
  assert (Hx : ObjectId_of_str id1 = Some oid1) by (vm_compute; reflexivity).
  assert (Hexam : find (has_id oid1) (exam (stored world1)) <> None)
    by (apply existsb_find; vm_compute; reflexivity).
  assert (Hnone : events_of oid1 (stored world1) = [])
    by (apply length_zero_iff_nil; vm_compute; reflexivity).
  assert (Hxl : openpyxl (env world1) = true) by (vm_compute; reflexivity).
  repeat (split; [assumption |]).
  exact (export_log_no_events id1 oid1 world1 (stored world1)
           Hdb Hx Hexam Hnone Hxl).
Defined.

Definition sheet3 : Export :=
  {| title := "Proctor Log";
     rows :=
       [header;
        [Int 1; Str "blur"; Str ""; Str "2023-11-14T22:13:20.123000";
         Str "2023-11-14T22:13:24+00:00"; Str "203.0.113.7";
         Str "Mozilla/5.0"];
        [Int 2; Str "fullscreen-exit"; Str "left fullscreen"; Str "";
         Str "2023-11-14T22:13:26+00:00"; Str "203.0.113.7";
         Str "Mozilla/5.0"]];
     content_disposition :=
       "attachment; filename=exam_65a1f0c2b3d4e5f601020304_log.xlsx" |}.

Lemma export_log_client_time_empty_witness :
  export_log id1 world3 = (Return sheet3, snd (export_log id1 world3))
  /\ exists d x data,
      db world3 = Some d
      /\ ObjectId_of_str id1 = Some x
      /\ rows sheet3 = header :: data
      /\ forall (k : nat) l,
          sorted_events_of x d !! k = Some l ->
          client_ts (fields l) = None \/ client_ts (fields l) = Some 0%Z ->
          exists r, data !! k = Some r /\ r !! 3%nat = Some (Str "").
Proof.
  split; [evaluate |].
  apply (export_log_client_time_empty id1 world3 sheet3
           (snd (export_log id1 world3))).
  evaluate.
Defined.

Definition absent_id : string := "65a1f0c2b3d4e5f6010203ff".

Lemma missing_exam_fails_witness :
  db world3 = Some (stored world3)
  /\ (forall slug_,
        find (matches_exam (By_slug slug_)) (exam (stored world3)) = None ->
        fst (get_exam_by_slug slug_ world3) = Raise exam_not_found
        /\ db (snd (get_exam_by_slug slug_ world3)) = Some (stored world3))
  /\ (forall exam_id_ x vbody lbody request,
        ObjectId_of_str exam_id_ = Some x ->
        find (has_id x) (exam (stored world3)) = None ->
        (fst (verify_exam_password exam_id_ vbody world3) = Raise exam_not_found
         /\ db (snd (verify_exam_password exam_id_ vbody world3))
            = Some (stored world3))
        /\ (fst (log_event exam_id_ lbody request world3) = Raise exam_not_found
            /\ db (snd (log_event exam_id_ lbody request world3))
               = Some (stored world3))
        /\ (fst (export_log exam_id_ world3) = Raise exam_not_found
            /\ db (snd (export_log exam_id_ world3)) = Some (stored world3)))
  /\ (forall exam_id_ vbody lbody request,
        ObjectId_of_str exam_id_ = None ->
        verify_exam_password exam_id_ vbody world3 = (Raise invalid_id, world3)
        /\ log_event exam_id_ lbody request world3 = (Raise invalid_id, world3)
        /\ export_log exam_id_ world3 = (Raise invalid_id, world3)).
Proof.
  assert (Hdb : db world3 = Some (stored world3))
    by (apply configured_db; vm_compute; reflexivity).
  split; [assumption |].
  exact (missing_exam_fails world3 (stored world3) Hdb).
Defined.

Example scenario_missing_exam :
  fst (get_exam_by_slug "0badc0de" world3) = Raise exam_not_found
  /\ fst (verify_exam_password absent_id {| vb_password := "secret123" |} world3)
     = Raise exam_not_found
  /\ fst (log_event absent_id blur request0 world3) = Raise exam_not_found
  /\ fst (export_log absent_id world3) = Raise exam_not_found
  /\ fst (verify_exam_password "not-an-id" {| vb_password := "secret123" |} world3)
     = Raise invalid_id
  /\ fst (log_event "not-an-id" blur request0 world3) = Raise invalid_id
  /\ fst (export_log "not-an-id" world3) = Raise invalid_id.
Proof. repeat split; vm_compute; reflexivity. Qed.

Lemma log_event_failure_writes_nothing_witness :
  log_event absent_id blur request0 world3
  = (Raise exam_not_found, snd (log_event absent_id blur request0 world3))
  /\ db (snd (log_event absent_id blur request0 world3)) = db world3.
Proof.
  split; [evaluate |].
  apply (log_event_failure_writes_nothing absent_id blur request0 world3
           exam_not_found).
  evaluate.
Defined.

(** *** Further runs *)

Definition offline : World := boot env0 None.

Lemma unconfigured_store_fails_witness :
  db offline = None
  /\ forall body request slug_ exam_id_ vbody lbody,
      create_exam body request offline = (Raise store_unavailable, offline)
      /\ get_exam_by_slug slug_ offline = (Raise store_unavailable, offline)
      /\ verify_exam_password exam_id_ vbody offline
         = (Raise store_unavailable, offline)
      /\ log_event exam_id_ lbody request offline
         = (Raise store_unavailable, offline)
      /\ export_log exam_id_ offline = (Raise store_unavailable, offline).
Proof.
  split; [reflexivity |].
  exact (unconfigured_store_fails offline eq_refl).
Defined.

(** A driver that mints the same identifier again and again. *)
Definition env_stuck : Env :=
  {| FRONTEND_BASE_URL := FRONTEND_BASE_URL env0;
     openpyxl := true;
     utcnow := utcnow env0;
     entropy := entropy env0;
     new_ObjectId := fun _ => oid1 |}.
Definition stuck1 : World :=
  serve (boot env_stuck (Some empty_db)) (Create_exam body1 request0).

Lemma create_exam_failure_writes_nothing_witness :
  create_exam body2 request0 stuck1
  = (Raise DuplicateKeyError, snd (create_exam body2 request0 stuck1))
  /\ db (snd (create_exam body2 request0 stuck1)) = db stuck1.
Proof.
  split; [evaluate |].
  apply (create_exam_failure_writes_nothing body2 request0 stuck1
           DuplicateKeyError).
  evaluate.
Defined.

Lemma short_url_has_single_slash_witness :
  create_exam body1 request0 world0 = (Return created1, world1)
  /\ exists base,
      c_short_url created1 = base ++ "/x/" ++ c_slug created1
      /\ ends_with_slash base = false.
Proof.
  split; [evaluate |].
  apply (short_url_has_single_slash body1 request0 world0 created1 world1).
  evaluate.
Defined.

Definition env_slashes : Env :=
  {| FRONTEND_BASE_URL := Some "//";
     openpyxl := true;
     utcnow := utcnow env0;
     entropy := entropy env0;
     new_ObjectId := new_ObjectId env0 |}.
Definition slashes0 : World := boot env_slashes (Some empty_db).
Definition created_relative : ExamCreated :=
  {| c_id := id1;
     c_slug := "9352c836";
     c_short_url := "/x/9352c836";
     c_embed_url := "https://forms.example.com/f1" |}.

Lemma short_url_of_slashes_is_relative_witness :
  create_exam body1 request0 slashes0
  = (Return created_relative, snd (create_exam body1 request0 slashes0))
  /\ FRONTEND_BASE_URL (env slashes0)
     = Some (string_of_list_ascii (repeat "/"%char 2))
  /\ c_short_url created_relative = "/x/" ++ c_slug created_relative.
Proof.
  split; [evaluate |]. split; [reflexivity |].
  apply (short_url_of_slashes_is_relative body1 request0 slashes0
           created_relative (snd (create_exam body1 request0 slashes0)) 1).
  - evaluate.
  - reflexivity.
Defined.

Definition session : list Call :=
  Create_exam body1 request0 :: Create_exam body2 request0 :: proctoring.

Lemma collections_only_grow_witness :
  db world0 = Some empty_db
  /\ exists d' exams_added events_added,
      db (serve_all session world0) = Some d'
      /\ exam d' = (exam empty_db ++ exams_added)%list
      /\ examlog d' = (examlog empty_db ++ events_added)%list.
Proof.
  split; [reflexivity |].
  exact (collections_only_grow session world0 empty_db eq_refl).
Defined.

Lemma events_stay_owned_witness :
  db world0 = Some empty_db
  /\ events_owned empty_db
  /\ exists d', db (serve_all session world0) = Some d' /\ events_owned d'.
Proof.
  assert (Hown : events_owned empty_db) by (intros l []).
  split; [reflexivity |]. split; [exact Hown |].
  exact (events_stay_owned session world0 empty_db eq_refl Hown).
Defined.

Lemma ids_stay_unique_witness :
  db world0 = Some empty_db
  /\ ids_unique empty_db
  /\ exists d', db (serve_all session world0) = Some d' /\ ids_unique d'.
Proof.
  assert (Huniq : ids_unique empty_db) by (split; constructor).
  split; [reflexivity |]. split; [exact Huniq |].
  exact (ids_stay_unique session world0 empty_db eq_refl Huniq).
Defined.

Lemma create_exam_adds_one_document_witness :
  create_exam body1 request0 world0 = (Return created1, world1)
  /\ exists d doc,
      db world0 = Some d
      /\ db world1 = Some {| exam := (exam d ++ [doc])%list;
                             examlog := examlog d |}
      /\ str_of_ObjectId (_id doc) = c_id created1
      /\ url (fields doc) = c_embed_url created1
      /\ slug (fields doc) = c_slug created1
      /\ password_hash (fields doc) = hash_password (ec_password body1).
Proof.
  split; [evaluate |].
  apply (create_exam_adds_one_document body1 request0 world0 created1 world1).
  evaluate.
Defined.

Lemma created_exams_have_distinct_ids_witness :
  create_exam body1 request0 world0 = (Return created1, world1)
  /\ create_exam body2 request0 (serve_all [] world1) = (Return created2, world2)
  /\ c_id created1 <> c_id created2.
Proof.
  split; [evaluate |]. split; [evaluate |].
  apply (created_exams_have_distinct_ids body1 request0 world0 created1 world1
           [] body2 request0 created2 world2); evaluate.
Defined.

Lemma log_event_appends_one_entry_witness :
  log_event id1 blur request0 world2
  = (Return true, snd (log_event id1 blur request0 world2))
  /\ true = true
  /\ exists d x entry,
      db world2 = Some d
      /\ ObjectId_of_str id1 = Some x
      /\ db (snd (log_event id1 blur request0 world2))
         = Some {| exam := exam d; examlog := (examlog d ++ [entry])%list |}
      /\ exam_id (fields entry) = x
      /\ type_ (fields entry) = lb_type blur
      /\ client_ts (fields entry) = lb_ts blur
      /\ server_ts (fields entry)
         = (utcnow (env world2) (clock_reads world2) / 1000 * 1000)%Z
      /\ ua (fields entry) = user_agent request0
      /\ (lb_details blur = None \/ lb_details blur = Some "" ->
          details (fields entry) = "")
      /\ (forall s, lb_details blur = Some s -> details (fields entry) = s)
      /\ (client request0 = None -> ip (fields entry) = None)
      /\ (forall host port,
            client request0 = Some (host, port) ->
            ip (fields entry) = Some host).
Proof.
  split; [evaluate |].
  apply (log_event_appends_one_entry id1 blur request0 world2 true
           (snd (log_event id1 blur request0 world2))).
  evaluate.
Defined.

Lemma get_exam_by_slug_answers_oldest_witness :
  db world2 = Some (stored world2)
  /\ (fst (get_exam_by_slug "9352c836" world2) = Raise exam_not_found
      <-> forall doc, In doc (exam (stored world2)) ->
                      slug (fields doc) <> "9352c836")
  /\ (forall found,
        fst (get_exam_by_slug "9352c836" world2) = Return found ->
        exists older doc newer,
          exam (stored world2) = (older ++ doc :: newer)%list
          /\ slug (fields doc) = "9352c836"
          /\ (forall e, In e older -> slug (fields e) <> "9352c836")
          /\ found = {| g_id := str_of_ObjectId (_id doc);
                        g_slug := "9352c836";
                        g_embed_url := url (fields doc) |}).
Proof.
  assert (Hdb : db world2 = Some (stored world2))
    by (apply configured_db; vm_compute; reflexivity).
  split; [exact Hdb |].
  exact (get_exam_by_slug_answers_oldest "9352c836" world2 (stored world2) Hdb).
Defined.

Lemma log_event_keeps_other_exports_witness :
  ObjectId_of_str id2 <> ObjectId_of_str id1
  /\ fst (export_log id1 (snd (log_event id2 blur request0 world3)))
     = fst (export_log id1 world3).
Proof.
  assert (Hne : ObjectId_of_str id2 <> ObjectId_of_str id1)
    by (vm_compute; discriminate).
  split; [exact Hne |].
  exact (log_event_keeps_other_exports id2 id1 blur request0 world3 Hne).
Defined.

(** The first exam after an event from the far future was logged. *)
Definition world4 : World := serve world3 (Log_event id1 far_future request0).

Lemma export_log_returns_iff_exportable_witness :
  db world4 = Some (stored world4)
  /\ ObjectId_of_str id1 = Some oid1
  /\ find (has_id oid1) (exam (stored world4)) <> None
  /\ openpyxl (env world4) = true
  /\ ((exists e, fst (export_log id1 world4) = Return e)
      <-> forall l, In l (events_of oid1 (stored world4)) ->
                    showable (client_ts (fields l)) /\ appendable (fields l))
  /\ (forall e, fst (export_log id1 world4) = Raise e ->
                e = ValueError \/ e = IllegalCharacterError).
Proof.
  assert (Hdb : db world4 = Some (stored world4))
    by (apply configured_db; vm_compute; reflexivity).
  assert (Hx : ObjectId_of_str id1 = Some oid1) by (vm_compute; reflexivity).
  assert (Hexam : find (has_id oid1) (exam (stored world4)) <> None)
    by (apply existsb_find; vm_compute; reflexivity).
  assert (Hxl : openpyxl (env world4) = true) by (vm_compute; reflexivity).
  repeat (split; [assumption |]).
  exact (export_log_returns_iff_exportable id1 oid1 world4 (stored world4)
           Hdb Hx Hexam Hxl).
Defined.

Lemma export_log_in_logging_order_witness :
  db world3 = Some (stored world3)
  /\ ObjectId_of_str id1 = Some oid1
  /\ StronglySorted
       (fun a b => (server_ts (fields a) < server_ts (fields b))%Z)
       (events_of oid1 (stored world3))
  /\ export_log id1 world3 = (Return sheet3, snd (export_log id1 world3))
  /\ exists data,
      rows sheet3 = header :: data
      /\ data_rows 1 (events_of oid1 (stored world3)) = Return data.
Proof.
  assert (Hdb : db world3 = Some (stored world3))
    by (apply configured_db; vm_compute; reflexivity).
  assert (Hx : ObjectId_of_str id1 = Some oid1) by (vm_compute; reflexivity).
  assert (Hinc : StronglySorted
                   (fun a b => (server_ts (fields a) < server_ts (fields b))%Z)
                   (events_of oid1 (stored world3))).
  { apply (increasingb_StronglySorted (fun l => server_ts (fields l))).
    vm_compute. reflexivity. }
  assert (Hrun : export_log id1 world3
                 = (Return sheet3, snd (export_log id1 world3))) by evaluate.
  repeat (split; [assumption |]).
  exact (export_log_in_logging_order id1 oid1 world3 (stored world3) sheet3
           (snd (export_log id1 world3)) Hdb Hx Hinc Hrun).
Defined.

Lemma created_exam_accepts_events_witness :
  create_exam body1 request0 world0 = (Return created1, world1)
  /\ db (serve_all [Create_exam body2 request0] world1)
     = Some (stored (serve_all [Create_exam body2 request0] world1))
  /\ (forall n, lb_ts blur = Some n -> (- 2 ^ 63 <= n < 2 ^ 63)%Z)
  /\ (document_size blur request0 <= 16777216)%Z
  /\ existsb
       (has_id (next_id (serve_all [Create_exam body2 request0] world1)))
       (examlog (stored (serve_all [Create_exam body2 request0] world1)))
     = false
  /\ fst (log_event (c_id created1) blur request0
            (serve_all [Create_exam body2 request0] world1))
     = Return true.
Proof.
  assert (Hrun : create_exam body1 request0 world0 = (Return created1, world1))
    by evaluate.
  assert (Hdb : db (serve_all [Create_exam body2 request0] world1)
                = Some (stored (serve_all [Create_exam body2 request0] world1)))
    by (apply configured_db; vm_compute; reflexivity).
  assert (Hfit : forall n, lb_ts blur = Some n -> (- 2 ^ 63 <= n < 2 ^ 63)%Z)
    by (intros n [= <-]; lia).
  assert (Hsize : (document_size blur request0 <= 16777216)%Z)
    by (vm_compute; discriminate).
  assert (Hfresh :
            existsb
              (has_id (next_id (serve_all [Create_exam body2 request0] world1)))
              (examlog (stored (serve_all [Create_exam body2 request0] world1)))
            = false) by (vm_compute; reflexivity).
  repeat (split; [assumption |]).
  exact (created_exam_accepts_events body1 request0 world0 created1 world1
           [Create_exam body2 request0] blur request0 _ Hrun Hdb Hfit Hsize
           Hfresh).
Defined.

Definition logged1 : World := snd (log_event id1 blur request0 world2).
Definition rest_of_session : list Call :=
  [Log_event id2 blur request0; Log_event id1 fullscreen_exit request0].

Lemma logged_event_is_exported_witness :
  log_event id1 blur request0 world2 = (Return true, logged1)
  /\ export_log id1 (serve_all rest_of_session logged1)
     = (Return sheet3, snd (export_log id1 (serve_all rest_of_session logged1)))
  /\ exists d1 entry (k : nat) ct cells,
      db logged1 = Some d1
      /\ last (examlog d1) = Some entry
      /\ client_time (fields entry) = Return ct
      /\ ws_append
           [Str (type_ (fields entry));
            Str (details (fields entry));
            Str ct;
            Str (astimezone_utc_isoformat (server_ts (fields entry)));
            cell_of (ip (fields entry));
            cell_of (ua (fields entry))]
         = Return cells
      /\ rows sheet3 !! S k = Some (Int (Z.of_nat (S k)) :: cells).
Proof.
  assert (Hlog : log_event id1 blur request0 world2 = (Return true, logged1))
    by evaluate.
  assert (Hexp : export_log id1 (serve_all rest_of_session logged1)
                 = (Return sheet3,
                    snd (export_log id1 (serve_all rest_of_session logged1))))
    by evaluate.
  repeat (split; [assumption |]).
  exact (logged_event_is_exported id1 blur request0 world2 true logged1
           rest_of_session sheet3 _ Hlog Hexp).
Defined.

Lemma fresh_exam_exports_header_only_witness :
  db world0 = Some empty_db
  /\ events_owned empty_db
  /\ openpyxl (env world0) = true
  /\ create_exam body1 request0 world0 = (Return created1, world1)
  /\ fst (export_log (c_id created1) world1)
     = Return (attachment (c_id created1) []).
Proof.
  assert (Hown : events_owned empty_db) by (intros l []).
  assert (Hrun : create_exam body1 request0 world0 = (Return created1, world1))
    by evaluate.
  split; [reflexivity |]. split; [exact Hown |]. split; [reflexivity |].
  split; [exact Hrun |].
  exact (fresh_exam_exports_header_only body1 request0 world0 empty_db
           created1 world1 eq_refl Hown eq_refl Hrun).
Defined.

End Instances.
